(** * CorePy, PowerPC typed values: instruction selection and literal
      materialization

    A shallow embedding of [corepy/arch/ppc/types/ppc_types.py] and of
    [examples/fbdemo.py].  The host language is Python 2: classes are
    objects with an identity, a method resolution order and a mutable
    attribute dictionary; integers are unbounded; a failing step raises an
    exception and leaves behind whatever state was mutated before it. *)

From Stdlib Require Import ZArith String List Lia SpecFloat.
From stdpp Require Import base option list gmap strings functions.

Local Open Scope string_scope.
Local Open Scope list_scope.
Local Open Scope stdpp_scope.

(** ** Exceptions and results *)

Inductive exn :=
| Exception (msg : string)
| AttributeError (msg : string)
| TypeError (msg : string)
| IndexError (msg : string)
| NameError (msg : string)
| OverflowError (msg : string).

Inductive res (A : Type) :=
| Ret (a : A)
| Raise (e : exn).
Arguments Ret {A} a.
Arguments Raise {A} e.

#[global] Instance res_ret : MRet res := fun A a => Ret a.
#[global] Instance res_bind : MBind res := fun A B k m =>
  match m with
  | Ret a => k a
  | Raise e => Raise e
  end.

Definition exn_message (e : exn) : string :=
  match e with
  | Exception m | AttributeError m | TypeError m
  | IndexError m | NameError m | OverflowError m => m
  end.

(** [mentions s msg]: the text [s] occurs in [msg]. *)
Fixpoint mentions (s msg : string) : bool :=
  String.prefix s msg ||
  match msg with
  | EmptyString => false
  | String _ rest => mentions s rest
  end.

(** ** Classes

    A class reference is the identity of a class object: its position in
    the heap of classes.  Python's [is] on classes is equality of
    references. *)

Definition cref := nat.

Record pyclass := PyClass {
  cls_name : string;
  cls_module : option string;      (* [None]: a builtin type *)
  cls_bases : list cref;
  cls_mro : list cref;             (* [__mro__], fixed at creation *)
  cls_dict : gmap string cref      (* the class-valued attributes *)
}.

(** The C3 linearization behind [__mro__]. *)

Definition in_tail (c : cref) (s : list cref) : bool :=
  match s with
  | [] => false
  | _ :: t => bool_decide (c ∈ t)
  end.

Definition good_head (seqs : list (list cref)) (c : cref) : bool :=
  forallb (fun s => negb (in_tail c s)) seqs.

Fixpoint pick_head (all seqs : list (list cref)) : option cref :=
  match seqs with
  | [] => None
  | [] :: rest => pick_head all rest
  | (c :: _) :: rest => if good_head all c then Some c else pick_head all rest
  end.

Definition drop_head (c : cref) (s : list cref) : list cref :=
  match s with
  | h :: t => if bool_decide (h = c) then t else s
  | [] => []
  end.

Definition is_nil (s : list cref) : bool :=
  match s with [] => true | _ => false end.

Fixpoint c3_merge (fuel : nat) (seqs : list (list cref)) : option (list cref) :=
  match fuel with
  | O => None
  | S n =>
      if forallb is_nil seqs then Some []
      else c ← pick_head seqs seqs;
           rest ← c3_merge n (map (drop_head c) seqs);
           Some (c :: rest)
  end.

Definition compute_mro (classes : list pyclass) (self : cref) (bases : list cref)
  : option (list cref) :=
  mros ← mapM (fun b => cls_mro <$> classes !! b) bases;
  tail ← c3_merge (S (length (concat mros) + length bases)) (mros ++ [bases]);
  Some (self :: tail).

(** [type(name, bases, dict)]: a new class object at a fresh reference. *)
Definition type_new (name : string) (module : option string) (bases : list cref)
    (dict : gmap string cref) (classes : list pyclass) : res (cref * list pyclass) :=
  let c := length classes in
  match compute_mro classes c bases with
  | Some mro => Ret (c, classes ++ [PyClass name module bases mro dict])
  | None => Raise (TypeError "Cannot create a consistent method resolution order (MRO) for bases")
  end.

(** Attribute lookup on a class walks the method resolution order. *)
Fixpoint mro_lookup (classes : list pyclass) (mro : list cref) (attr : string)
  : option cref :=
  match mro with
  | [] => None
  | k :: rest =>
      match classes !! k ≫= (fun cl => cls_dict cl !! attr) with
      | Some v => Some v
      | None => mro_lookup classes rest attr
      end
  end.

Definition class_lookup (classes : list pyclass) (c : cref) (attr : string)
  : option cref :=
  mro ← cls_mro <$> classes !! c;
  mro_lookup classes mro attr.

(** [cls.attr = v] *)
Definition class_setattr (c : cref) (attr : string) (v : cref)
    (classes : list pyclass) : list pyclass :=
  alter (fun cl => PyClass (cls_name cl) (cls_module cl) (cls_bases cl)
                           (cls_mro cl) (<[attr := v]> (cls_dict cl)))
        c classes.

Definition issubclass (classes : list pyclass) (c d : cref) : bool :=
  match classes !! c with
  | Some cl => bool_decide (d ∈ cls_mro cl)
  | None => false
  end.

(** [str(cls)] *)
Definition class_str (classes : list pyclass) (c : cref) : string :=
  match classes !! c with
  | Some (PyClass n (Some m) _ _ _) => "<class '" +:+ m +:+ "." +:+ n +:+ "'>"
  | Some (PyClass n None _ _ _) => "<type '" +:+ n +:+ "'>"
  | None => ""
  end.

Definition class_name (classes : list pyclass) (c : cref) : string :=
  match classes !! c with
  | Some cl => cls_name cl
  | None => ""
  end.

(** ** The classes that exist when [ppc_types] starts to load

    Builtin types, the classes of [corepy.spre.spe] that the module names
    ([Type], [Variable], [Expression], [Immediate]) and the type classes
    declared by the module's own [class] statements. *)

Module Cls.
Definition object : cref := 0.
Definition int : cref := 1.
Definition long : cref := 2.
Definition float : cref := 3.
Definition NoneType : cref := 4.
Definition Type_ : cref := 5.
Definition Variable_ : cref := 6.
Definition Expression : cref := 7.
Definition Immediate : cref := 8.
Definition PPCType : cref := 9.
Definition BitType : cref := 10.
Definition UnsignedWordType : cref := 11.
Definition SignedWordType : cref := 12.
Definition SingleFloatType : cref := 13.
Definition DoubleFloatType : cref := 14.
End Cls.

Definition spe_module : string := "corepy.spre.spe".
Definition this_module : string := "corepy.arch.ppc.types.ppc_types".

(** A [class] statement with an empty body of class-valued attributes. *)
Definition class_stmt (classes : list pyclass)
    (decl : string * option string * list cref) : list pyclass :=
  let '(name, module, bases) := decl in
  match type_new name module bases ∅ classes with
  | Ret (_, cs) => cs
  | Raise _ => classes
  end.

Definition class_statements : list (string * option string * list cref) :=
  [ ("object", None, []);
    ("int", None, [Cls.object]);
    ("long", None, [Cls.object]);
    ("float", None, [Cls.object]);
    ("NoneType", None, [Cls.object]);
    ("Type", Some spe_module, [Cls.object]);
    ("Variable", Some spe_module, [Cls.object]);
    ("Expression", Some spe_module, [Cls.object]);
    ("Immediate", Some spe_module, [Cls.object]);
    ("PPCType", Some this_module, [Cls.Type_]);
    ("BitType", Some this_module, [Cls.PPCType]);
    ("UnsignedWordType", Some this_module, [Cls.BitType]);
    ("SignedWordType", Some this_module, [Cls.BitType]);
    ("SingleFloatType", Some this_module, [Cls.PPCType]);
    ("DoubleFloatType", Some this_module, [Cls.PPCType]) ].

Definition declared_classes : list pyclass :=
  fold_left class_stmt class_statements [].

(** ** Objects *)

Definition sref := nat.   (* the identity of an instruction stream *)

Inductive pyobj :=
| PyNone
| PyInt (z : Z)
| PyLong (z : Z)
| PyFloat (x : spec_float)
| PyVar (cls : cref) (reg : nat) (code : option sref) (value : pyobj)
| PyObject (cls : cref).

(** [type(o)] *)
Definition type_of (o : pyobj) : cref :=
  match o with
  | PyNone => Cls.NoneType
  | PyInt _ => Cls.int
  | PyLong _ => Cls.long
  | PyFloat _ => Cls.float
  | PyVar cls _ _ _ => cls
  | PyObject cls => cls
  end.

(** The module: its heap of classes and the class-valued global names
    that are bound while it runs. *)
Record pymodule := PyModule {
  classes : list pyclass;
  globals : gmap string cref
}.

Section Attributes.
Variable M : pymodule.

Definition hasattr (o : pyobj) (attr : string) : bool :=
  bool_decide (is_Some (class_lookup (classes M) (type_of o) attr)).

Definition no_attribute (o : pyobj) (attr : string) : exn :=
  AttributeError ("'" +:+ class_name (classes M) (type_of o)
                  +:+ "' object has no attribute '" +:+ attr +:+ "'").

Definition getattr (o : pyobj) (attr : string) : res cref :=
  match class_lookup (classes M) (type_of o) attr with
  | Some v => Ret v
  | None => Raise (no_attribute o attr)
  end.

Definition isinstance (o : pyobj) (c : cref) : bool :=
  issubclass (classes M) (type_of o) c.

Definition isinstance_any (o : pyobj) (cs : list cref) : bool :=
  existsb (isinstance o) cs.

(** [str(type(o))] *)
Definition str_type (o : pyobj) : string := class_str (classes M) (type_of o).

(** A global name bound to a class *)
Definition global (name : string) : res cref :=
  match globals M !! name with
  | Some c => Ret c
  | None => Raise (NameError ("global name '" +:+ name +:+ "' is not defined"))
  end.
End Attributes.

(** ** The dual-class factory *)

Definition make_user_type (name : string) (type_cls : cref) (M : pymodule)
  : res unit * pymodule :=
  match type_new name (Some this_module) [Cls.Variable_; type_cls]
                 {[ "type_cls" := type_cls ]} (classes M) with
  | Raise e => (Raise e, M)
  | Ret (var_cls, cs1) =>
      match type_new (name +:+ "Ex") (Some this_module) [Cls.Expression; type_cls]
                     {[ "type_cls" := type_cls ]} cs1 with
      | Raise e => (Raise e, PyModule cs1 (globals M))
      | Ret (expr_cls, cs2) =>
          let cs3 := class_setattr type_cls "var_cls" var_cls cs2 in
          let cs4 := class_setattr type_cls "expr_cls" expr_cls cs3 in
          (Ret (), PyModule cs4 (<[ name := var_cls ]> (globals M)))
      end
  end.

Definition _user_types : list (string * cref) :=
  [ ("Bits", Cls.BitType);
    ("UnsignedWord", Cls.UnsignedWordType);
    ("SignedWord", Cls.SignedWordType);
    ("SingleFloat", Cls.SingleFloatType);
    ("DoubleFloat", Cls.DoubleFloatType) ].

(** Modelled from the spec: [corepy.arch.ppc.lib.util.make_user_type], which
    the registration loop calls and which is not among the sources: it is the
    dual-class factory, that is [make_user_type] above, applied to the
    module's globals. *)
Fixpoint register_user_types (ts : list (string * cref)) (M : pymodule)
  : res unit * pymodule :=
  match ts with
  | [] => (Ret (), M)
  | (name, type_cls) :: rest =>
      match make_user_type name type_cls M with
      | (Ret _, M') => register_user_types rest M'
      | (Raise e, M') => (Raise e, M')
      end
  end.

(** The module once its top level has run. *)
Definition ppc_types : pymodule :=
  Eval vm_compute in
    snd (register_user_types _user_types (PyModule declared_classes ∅)).

(** ** The type-precedence resolver *)

Definition _most_specific (M : pymodule) (a b : pyobj) (default : option cref)
  : res (option cref) :=
  if hasattr M a "type_cls" && hasattr M a "type_cls" then
    b_cls ← getattr M b "type_cls";
    a_cls ← getattr M a "type_cls";
    if issubclass (classes M) b_cls a_cls then Ret (Some (type_of b))
    else if issubclass (classes M) a_cls b_cls then Ret (Some (type_of a))
    else Ret default
  else if bool_decide (default = None) then
    if hasattr M a "type_cls" then Ret (Some (type_of a))
    else if hasattr M b "type_cls" then Ret (Some (type_of b))
    else Ret default
  else Ret default.

Definition _int_literals : list cref := [Cls.Immediate; Cls.int; Cls.long].

(** ** Instruction templates and computed values

    The encoder [corepy.arch.ppc.isa] is a collaborator: the operators only
    pick a template by name and hand it the operands.  A computed value
    records which of the three call forms of the source built it. *)

Module ppc.
Inductive instr :=
| andx | andi | orx | ori | xorx | xori | slwx | srwx
| addx | addi | addis | divwux | divwx | mullwx | mulli | negx | subfx
| fabsx | fnegx | faddsx | fdivsx | fmulsx | fsubsx
| faddx | fdivx | fmulx | fsubx | lfs | lfd
| fmaddsx | fmaddx | fmsubsx | fmsubx
| fnmaddsx | fnmaddx | fnmsubsx | fnmsubx | fsqrtsx | fsqrtx.
End ppc.

Inductive computed :=
| Expr_new (cls : cref) (inst : ppc.instr) (operands : list pyobj)
    (* [cls(inst, a, b, ...)] *)
| Inst_ex (inst : ppc.instr) (operands : list pyobj) (type_cls : option cref)
    (* [inst.ex(a, b, ..., type_cls = t)] *)
| Inst_call (inst : ppc.instr) (operands : list pyobj) (type_cls : option cref).
    (* [inst(a, ..., type_cls = t)] *)

(** The result kind a computed value carries: the class it instantiates,
    or the kind forced on the template. *)
Definition cv_kind (v : computed) : option cref :=
  match v with
  | Expr_new cls _ _ => Some cls
  | Inst_ex _ _ t | Inst_call _ _ t => t
  end.

(** ['<op> not implemented for %s and %s' % (type(self), type(other))] *)
Definition not_implemented (M : pymodule) (op : string) (self other : pyobj) : exn :=
  Exception (op +:+ " not implemented for " +:+ str_type M self
             +:+ " and " +:+ str_type M other).

(** [raise NotImplemented]: the operand of [raise] is not an exception. *)
Definition raise_NotImplemented : exn :=
  TypeError "exceptions must be old-style classes or derived from BaseException, not NotImplementedType".

(** ** Instruction streams

    Modelled from the spec: the instruction stream and its register
    allocator ([InstructionStream] of [corepy.arch.ppc.platform], not among
    the sources).  Emission appends; the constant pool keeps the arrays it
    is given; [acquire_register] hands out a free register and fails when
    none is left; [release_register] returns one to the pool. *)

Inductive operand :=
| Reg (r : nat)
| Imm (z : Z).

Record instruction := Instruction {
  opcode : ppc.instr;
  args : list operand
}.

Inductive typecode := tc_f | tc_d.

(** [array.array(typecode, (x,))]: one item, kept in the array's own
    format, in a buffer at some address of the host's choosing. *)
Record pyarray := PyArray {
  arr_typecode : typecode;
  arr_item : spec_float;
  arr_address : Z
}.

Record InstructionStream := Stream {
  instructions : list instruction;
  storage : list pyarray;
  free_registers : list nat
}.

(** The streams that exist, by identity, and the active-target slot of the
    instruction-set module. *)
Record world := World {
  streams : sref -> InstructionStream;
  active_code : option sref
}.

Definition action (A : Type) : Type := world -> res A * world.

Definition ret {A} (a : A) : action A := fun W => (Ret a, W).
Definition throw {A} (e : exn) : action A := fun W => (Raise e, W).
Definition bind {A B} (m : action A) (k : A -> action B) : action B :=
  fun W => match m W with
           | (Ret a, W') => k a W'
           | (Raise e, W') => (Raise e, W')
           end.
Definition lift {A} (r : res A) : action A := fun W => (r, W).

Notation "x <- m ;; k" := (bind m (fun x => k))
  (at level 100, m at next level, right associativity).
Notation "m ;;; k" := (bind m (fun _ => k))
  (at level 100, right associativity).

Definition free_count (W : world) (c : sref) : nat :=
  length (free_registers (streams W c)).

Module code.
(** A method call on [self.code]; [None] has no methods. *)
Definition method {A} (target : option sref) (name : string)
    (f : InstructionStream -> res A * InstructionStream) : action A :=
  fun W =>
    match target with
    | None => (Raise (AttributeError ("'NoneType' object has no attribute '"
                                      +:+ name +:+ "'")), W)
    | Some c =>
        let '(r, s') := f (streams W c) in
        (r, World (<[ c := s' ]> (streams W)) (active_code W))
    end.

Definition add (target : option sref) (i : instruction) : action unit :=
  method target "add" (fun s =>
    (Ret (), Stream (instructions s ++ [i]) (storage s) (free_registers s))).

Definition add_storage (target : option sref) (a : pyarray) : action unit :=
  method target "add_storage" (fun s =>
    (Ret (), Stream (instructions s) (storage s ++ [a]) (free_registers s))).

Definition acquire_register (target : option sref) : action nat :=
  method target "acquire_register" (fun s =>
    match free_registers s with
    | r :: rest => (Ret r, Stream (instructions s) (storage s) rest)
    | [] => (Raise (Exception "No free registers available"), s)
    end).

Definition release_register (target : option sref) (r : nat) : action unit :=
  method target "release_register" (fun s =>
    (Ret (), Stream (instructions s) (storage s) (r :: free_registers s))).
End code.

(** [ppc.get_active_code()], [ppc.set_active_code(code)] *)
Definition get_active_code : action (option sref) :=
  fun W => (Ret (active_code W), W).
Definition set_active_code (c : option sref) : action unit :=
  fun W => (Ret (), World (streams W) c).

Module PPCType.
Definition _get_active_code (self : pyobj) : action (option sref) := get_active_code.
Definition _set_active_code (self : pyobj) (c : option sref) : action unit :=
  set_active_code c.
End PPCType.

(** Instance attributes of a storage value *)
Definition no_instance_attribute {A} (M : pymodule) (self : pyobj) (attr : string)
  : res A := Raise (no_attribute M self attr).

Definition attr_reg (M : pymodule) (self : pyobj) : res nat :=
  match self with
  | PyVar _ r _ _ => Ret r
  | _ => no_instance_attribute M self "reg"
  end.
Definition attr_code (M : pymodule) (self : pyobj) : res (option sref) :=
  match self with
  | PyVar _ _ c _ => Ret c
  | _ => no_instance_attribute M self "code"
  end.
Definition attr_value (M : pymodule) (self : pyobj) : res pyobj :=
  match self with
  | PyVar _ _ _ v => Ret v
  | _ => no_instance_attribute M self "value"
  end.

(** ** Host floats

    A Python float is a binary64 number; an array of typecode ['f'] keeps
    its items in binary32. *)

Definition float_of_Z (z : Z) : res spec_float :=
  match binary_normalize 53 1024 z 0 false with
  | S754_infinity _ => Raise (OverflowError "long int too large to convert to float")
  | x => Ret x
  end.

(** [float(v)] *)
Definition py_float (v : pyobj) : res spec_float :=
  match v with
  | PyFloat x => Ret x
  | PyInt z | PyLong z => float_of_Z z
  | _ => Raise (TypeError "float() argument must be a string or a number")
  end.

Definition to_single (x : spec_float) : spec_float :=
  match x with
  | S754_finite s m e => binary_round 24 128 s m e
  | _ => x
  end.

Definition array_new (tc : typecode) (x : spec_float) (address : Z) : pyarray :=
  PyArray tc (match tc with tc_f => to_single x | tc_d => x end) address.

Definition itemsize (tc : typecode) : Z :=
  match tc with tc_f => 4 | tc_d => 8 end.

(** The IEEE 754 interchange encoding of a number of precision [prec] and
    exponent bound [emax]; not-a-number is given its quiet pattern. *)
Definition float_bits (prec emax : Z) (x : spec_float) : Z :=
  let mbits := (prec - 1)%Z in
  let ebits := (Z.log2 emax + 1)%Z in
  let sign (s : bool) := if s then (2 ^ (ebits + mbits))%Z else 0%Z in
  let top := ((2 ^ ebits - 1) * 2 ^ mbits)%Z in
  match x with
  | S754_zero s => sign s
  | S754_infinity s => (sign s + top)%Z
  | S754_nan => (top + 2 ^ (mbits - 1))%Z
  | S754_finite s m e =>
      if (Z.pos m <? 2 ^ mbits)%Z then (sign s + Z.pos m)%Z
      else (sign s + (e - emin prec emax + 1) * 2 ^ mbits + (Z.pos m - 2 ^ mbits))%Z
  end.

(** The bit pattern an array holds for its item. *)
Definition array_bits (a : pyarray) : Z :=
  match arr_typecode a with
  | tc_f => float_bits 24 128 (arr_item a)
  | tc_d => float_bits 53 1024 (arr_item a)
  end.

(** ** General purpose register types *)

Module BitType.
Section Methods.
Variable M : pymodule.

Definition _upcast (self other : pyobj) (inst : ppc.instr) : res computed :=
  t ← _most_specific M self other None;
  Ret (Inst_ex inst [self; other] t).

Definition __and__ (self other : pyobj) : res computed :=
  if isinstance M other Cls.BitType then _upcast self other ppc.andx
  else if isinstance_any M other _int_literals then
    v ← getattr M self "var_cls"; Ret (Inst_ex ppc.andi [self; other] (Some v))
  else Raise (not_implemented M "__and__" self other).

Definition __lshift__ (self other : pyobj) : res computed :=
  if isinstance M other Cls.BitType then
    v ← getattr M self "var_cls"; Ret (Inst_ex ppc.slwx [self; other] (Some v))
  else Raise (not_implemented M "__lshift__" self other).

Definition __rshift__ (self other : pyobj) : res computed :=
  if isinstance M other Cls.BitType then
    v ← getattr M self "var_cls"; Ret (Inst_ex ppc.srwx [self; other] (Some v))
  else Raise (not_implemented M "__rshift__" self other).

Definition __or__ (self other : pyobj) : res computed :=
  if isinstance M other Cls.BitType then _upcast self other ppc.orx
  else if isinstance_any M other _int_literals then
    v ← getattr M self "var_cls"; Ret (Inst_ex ppc.ori [self; other] (Some v))
  else Raise (not_implemented M "__or__" self other).

Definition __xor__ (self other : pyobj) : res computed :=
  if isinstance M other Cls.BitType then _upcast self other ppc.xorx
  else if isinstance_any M other _int_literals then
    v ← getattr M self "var_cls"; Ret (Inst_ex ppc.xori [self; other] (Some v))
  else Raise (not_implemented M "__xor__" self other).

Definition _set_literal_value (self : pyobj) (value : Z) : action unit :=
  target <- lift (attr_code M self) ;;
  reg <- lift (attr_reg M self) ;;
  (code.add target (Instruction ppc.addi [Reg reg; Imm 0; Imm value])) ;;;
  if negb (Z.land value 0xFFFF =? value)%Z then
    code.add target
      (Instruction ppc.addis
         [Reg reg; Reg reg; Imm (Z.shiftr (value + 32768) 16)])
  else ret ().
End Methods.
End BitType.

Module UnsignedWordType.
Section Methods.
Variable M : pymodule.

Definition __add__ (self other : pyobj) : res computed :=
  if isinstance M other Cls.UnsignedWordType then
    v ← getattr M self "var_cls"; Ret (Inst_ex ppc.addx [self; other] (Some v))
  else if isinstance_any M other [Cls.Immediate; Cls.int] then
    e ← getattr M self "expr_cls"; Ret (Expr_new e ppc.addi [self; other])
  else Raise (not_implemented M "__add__" self other).

Definition __div__ (self other : pyobj) : res computed :=
  if isinstance M other Cls.SignedWordType then
    e ← getattr M self "expr_cls"; Ret (Expr_new e ppc.divwux [self; other])
  else Raise raise_NotImplemented.
End Methods.
End UnsignedWordType.

Module SignedWordType.
Section Methods.
Variable M : pymodule.

Definition __add__ (self other : pyobj) : res computed :=
  if isinstance M other Cls.SignedWordType then
    v ← getattr M self "var_cls"; Ret (Inst_ex ppc.addx [self; other] (Some v))
  else if isinstance_any M other [Cls.Immediate; Cls.int] then
    e ← getattr M self "expr_cls"; Ret (Expr_new e ppc.addi [self; other])
  else Raise (not_implemented M "__add__" self other).

Definition __div__ (self other : pyobj) : res computed :=
  if isinstance M other Cls.SignedWordType then
    e ← getattr M self "expr_cls"; Ret (Expr_new e ppc.divwx [self; other])
  else Raise (not_implemented M "__div__" self other).

Definition __mul__ (self other : pyobj) : res computed :=
  if isinstance M other Cls.SignedWordType then
    e ← getattr M self "expr_cls"; Ret (Expr_new e ppc.mullwx [self; other])
  else if isinstance_any M other [Cls.Immediate; Cls.int] then
    e ← getattr M self "expr_cls"; Ret (Expr_new e ppc.mulli [self; other])
  else Raise (not_implemented M "__mul__" self other).

Definition __neg__ (self : pyobj) : res computed :=
  v ← getattr M self "var_cls"; Ret (Inst_call ppc.negx [self] (Some v)).

Definition __sub__ (self other : pyobj) : res computed :=
  if isinstance M other Cls.SignedWordType then
    e ← getattr M self "expr_cls"; Ret (Expr_new e ppc.subfx [other; self])
  else Raise (not_implemented M "__add__" self other).
End Methods.
End SignedWordType.

(** Modelled from the spec: the constructor of a storage value
    ([spe.Variable.__init__], not among the sources), in the one form the
    float routines use, [Bits(value, reg = r)]: the new value is bound to
    the caller's register, emits into the active target since no stream is
    passed, and being initialized from a host integer it is materialized by
    its kind's routine. *)
Definition Bits (M : pymodule) (value : Z) (reg : nat) : action pyobj :=
  cls <- lift (global M "Bits") ;;
  target <- get_active_code ;;
  let self := PyVar cls reg target (PyInt value) in
  (BitType._set_literal_value M self value) ;;;
  ret self.

(** ** Floating point register types: the operators *)

Section FloatOperators.
Variable M : pymodule.

(** The unary and binary operator bodies of the two float classes differ
    only in the class tested and the template picked. *)
Definition float_unary (inst : ppc.instr) (self : pyobj) : res computed :=
  v ← getattr M self "var_cls"; Ret (Inst_ex inst [self] (Some v)).

Definition float_binary (own : cref) (op : string) (inst : ppc.instr)
    (self other : pyobj) : res computed :=
  if isinstance M other own then
    v ← getattr M self "var_cls"; Ret (Inst_ex inst [self; other] (Some v))
  else Raise (not_implemented M op self other).
End FloatOperators.

Module SingleFloatType.
Section Methods.
Variable M : pymodule.

Definition __abs__ := float_unary M ppc.fabsx.
Definition __add__ := float_binary M Cls.SingleFloatType "__add__" ppc.faddsx.
Definition __div__ := float_binary M Cls.SingleFloatType "__div__" ppc.fdivsx.
Definition __mul__ := float_binary M Cls.SingleFloatType "__mul__" ppc.fmulsx.
Definition __neg__ := float_unary M ppc.fnegx.
Definition __sub__ := float_binary M Cls.SingleFloatType "__sub__" ppc.fsubsx.

(** [address] is where the host puts the buffer of the new array,
    [storage.buffer_info()[0]]. *)
Definition _set_literal_value (self value : pyobj) (address : Z)
  : action unit :=
  v <- lift (attr_value M self) ;;
  x <- lift (py_float v) ;;
  let storage := array_new tc_f x address in
  target <- lift (attr_code M self) ;;
  (code.add_storage target storage) ;;;
  r_storage <- code.acquire_register target ;;
  addr <- Bits M (arr_address storage) r_storage ;;
  reg <- lift (attr_reg M self) ;;
  addr_reg <- lift (attr_reg M addr) ;;
  (code.add target (Instruction ppc.lfs [Reg reg; Reg addr_reg; Imm 0])) ;;;
  code.release_register target r_storage.
End Methods.
End SingleFloatType.

Module DoubleFloatType.
Section Methods.
Variable M : pymodule.

Definition __abs__ := float_unary M ppc.fabsx.
Definition __add__ := float_binary M Cls.DoubleFloatType "__add__" ppc.faddx.
Definition __div__ := float_binary M Cls.DoubleFloatType "__div__" ppc.fdivx.
Definition __mul__ := float_binary M Cls.DoubleFloatType "__mul__" ppc.fmulx.
Definition __neg__ := float_unary M ppc.fnegx.
Definition __sub__ := float_binary M Cls.DoubleFloatType "__sub__" ppc.fsubx.

(** [address] is where the host puts the buffer of the new array,
    [storage.buffer_info()[0]]. *)
Definition _set_literal_value (self value : pyobj) (address : Z)
  : action unit :=
  v <- lift (attr_value M self) ;;
  x <- lift (py_float v) ;;
  let storage := array_new tc_d x address in
  target <- lift (attr_code M self) ;;
  (code.add_storage target storage) ;;;
  r_storage <- code.acquire_register target ;;
  addr <- Bits M (arr_address storage) r_storage ;;
  reg <- lift (attr_reg M self) ;;
  addr_reg <- lift (attr_reg M addr) ;;
  (code.add target (Instruction ppc.lfd [Reg reg; Reg addr_reg; Imm 0])) ;;;
  code.release_register target r_storage.
End Methods.
End DoubleFloatType.

(** ** Floating point free functions *)

Record _float_function := Float_function {
  name : string;
  single_func : ppc.instr;
  double_func : ppc.instr
}.

Module float_function.
Section Call.
Variable M : pymodule.

(** [for op in operands[1:]: if op.var_cls != a.var_cls: raise ...] *)
Fixpoint check_operands (a : pyobj) (rest : list pyobj) : res unit :=
  match rest with
  | [] => Ret ()
  | op :: rest' =>
      op_cls ← getattr M op "var_cls";
      a_cls ← getattr M a "var_cls";
      if bool_decide (op_cls ≠ a_cls)
      then Raise (Exception "Types for all operands must be the same")
      else check_operands a rest'
  end.

Definition __call__ (self : _float_function) (operands : list pyobj)
  : res computed :=
  match operands with
  | [] => Raise (IndexError "tuple index out of range")
  | a :: rest =>
      _ ← check_operands a rest;
      if isinstance M a Cls.SingleFloatType then
        t ← global M "SingleFloat";
        Ret (Inst_ex (single_func self) operands (Some t))
      else if isinstance M a Cls.DoubleFloatType then
        t ← global M "DoubleFloat";
        Ret (Inst_ex (double_func self) operands (Some t))
      else Raise (Exception (name self +:+ " is not implemeneted for "
                             +:+ str_type M a))
  end.
End Call.
End float_function.

Definition fmadd := Float_function "fmadd" ppc.fmaddsx ppc.fmaddx.
Definition fmsub := Float_function "fmsub" ppc.fmsubsx ppc.fmsubx.
Definition fnmadd := Float_function "fnmadd" ppc.fnmaddsx ppc.fnmaddx.
Definition fnmsub := Float_function "fnmsub" ppc.fnmsubsx ppc.fnmsubx.
Definition fsqrt := Float_function "fsqrt" ppc.fsqrtsx ppc.fsqrtx.

(** ** The framebuffer demo *)

Module FBDraw.
Record t := Make {
  buffers : option (Z * Z);
  stride : option Z
}.

Definition __init__ : t := Make None None.
Definition set_buffers (self : t) (fb0 fb1 : Z) : t := Make (Some (fb0, fb1)) (stride self).
Definition set_stride (self : t) (s : Z) : t := Make (buffers self) (Some (s * 4)%Z).

Section Synthesize.
(** The drawing code between the checks and the restore is written
    against the SPU collaborators (typed values, iterators, DMA); it
    is whatever action on the streams they perform. *)
Variable draw : t -> sref -> action unit.

Definition synthesize (self : t) (code : sref) : action unit :=
  old_code <- get_active_code ;;
  (set_active_code (Some code)) ;;;
  (if bool_decide (buffers self = None)
   then throw (Exception "Please set buffers") else ret ()) ;;;
  (if bool_decide (stride self = None)
   then throw (Exception "Please set stride") else ret ()) ;;;
  (draw self code) ;;;
  set_active_code old_code.
End Synthesize.
End FBDraw.

(** * Vocabulary of the properties *)

(** ** The loaded module, by name

    The classes the registration loop created, by the names it gave them,
    and some values of those classes used as concrete operands below. *)

Module User.
Definition Bits : cref := 15.
Definition BitsEx : cref := 16.
Definition UnsignedWord : cref := 17.
Definition UnsignedWordEx : cref := 18.
Definition SignedWord : cref := 19.
Definition SignedWordEx : cref := 20.
Definition SingleFloat : cref := 21.
Definition SingleFloatEx : cref := 22.
Definition DoubleFloat : cref := 23.
Definition DoubleFloatEx : cref := 24.
End User.

Definition one : spec_float := S754_finite false 4503599627370496 (-52).
Definition two : spec_float := S754_finite false 4503599627370496 (-51).

Definition a_bits : pyobj := PyVar User.Bits 3 (Some 0) (PyInt 255).
Definition an_unsigned_word : pyobj := PyVar User.UnsignedWord 4 (Some 0) (PyInt 7).
Definition a_signed_word : pyobj := PyVar User.SignedWord 5 (Some 0) (PyInt 11).
Definition a_signed_expr : pyobj := PyObject User.SignedWordEx.
Definition a_single : pyobj := PyVar User.SingleFloat 1 (Some 0) (PyFloat one).
Definition a_double : pyobj := PyVar User.DoubleFloat 2 (Some 0) (PyFloat two).

Definition idle_stream : InstructionStream := Stream [] [] [3; 4; 5].
Definition one_active : world := World (fun _ => idle_stream) (Some 0).
Definition none_active : world := World (fun _ => idle_stream) None.

(** Drawing bodies and a drawer with both parameters set. *)
Definition careless_body (self : FBDraw.t) (code : sref) : action unit :=
  (code.add (Some code) (Instruction ppc.addi [Reg 3; Imm 0; Imm 0])) ;;;
  set_active_code None.

Definition a_drawer : FBDraw.t :=
  FBDraw.set_stride (FBDraw.set_buffers FBDraw.__init__ 4096 8192) 640.

Definition failing_body (self : FBDraw.t) (code : sref) : action unit :=
  (code.add (Some code) (Instruction ppc.addi [Reg 3; Imm 0; Imm 0])) ;;;
  throw (Exception "no framebuffer").

(** ** Conditions and frames *)

(** The exception of the dispatcher's operand check. *)
Definition mismatch : exn := Exception "Types for all operands must be the same".

(** A kind and its two classes point at each other. *)
Definition cross_linked (M : pymodule) (kind var_cls expr_cls : cref) : Prop :=
  class_lookup (classes M) kind "var_cls" = Some var_cls /\
  class_lookup (classes M) var_cls "type_cls" = Some kind /\
  class_lookup (classes M) kind "expr_cls" = Some expr_cls /\
  class_lookup (classes M) expr_cls "type_cls" = Some kind.

(** How many classes of the module carry a given name. *)
Definition classes_named (M : pymodule) (n : string) : nat :=
  length (filter (fun c => cls_name c = n) (classes M)).

(** What an integer literal emits into its stream. *)
Definition low_half (reg : nat) (L : Z) : instruction :=
  Instruction ppc.addi [Reg reg; Imm 0; Imm L].
Definition high_half (reg : nat) (L : Z) : instruction :=
  Instruction ppc.addis [Reg reg; Reg reg; Imm (Z.shiftr (L + 32768) 16)].
Definition literal_code (reg : nat) (L : Z) : list instruction :=
  low_half reg L :: if (Z.land L 0xFFFF =? L)%Z then [] else [high_half reg L].

(** A step that leaves every stream but [c] alone, and the slot too. *)
Definition only_touches (c : sref) (W W' : world) : Prop :=
  active_code W' = active_code W /\
  forall c', c' <> c -> streams W' c' = streams W c'.

(** A step that leaves every allocator as it was. *)
Definition same_free (W W' : world) : Prop :=
  forall c, free_registers (streams W' c) = free_registers (streams W c).

(** The sixteen low bits of an immediate, read as a signed number, as
    the load of the low half does. *)
Definition sign_extend_16 (z : Z) : Z :=
  let low := (z mod 65536)%Z in
  if (low <? 32768)%Z then low else (low - 65536)%Z.

(** A step that only appends: every stream's instructions and constant
    pool before the step are a prefix of what they are after it. *)
Definition extends (W W' : world) : Prop :=
  forall c,
    instructions (streams W c) `prefix_of` instructions (streams W' c) /\
    storage (streams W c) `prefix_of` storage (streams W' c).

Definition grows {A} (m : action A) : Prop :=
  forall W r W', m W = (r, W') -> extends W W'.

(** * Properties *)

(** ** Attribute lookup *)

Lemma getattr_hasattr M o attr v :
  getattr M o attr = Ret v -> hasattr M o attr = true.
Proof.
  unfold getattr, hasattr. destruct (class_lookup _ _ _) eqn:E; [|discriminate].
  intros _. apply bool_decide_eq_true. eauto.
Qed.

Lemma hasattr_getattr M o attr :
  hasattr M o attr = true -> exists v, getattr M o attr = Ret v.
Proof.
  unfold getattr, hasattr. intros H%bool_decide_eq_true.
  destruct H as [v ->]. eauto.
Qed.

Lemma not_hasattr_getattr M o attr :
  hasattr M o attr = false -> getattr M o attr = Raise (no_attribute M o attr).
Proof.
  unfold getattr, hasattr. intros H%bool_decide_eq_false.
  destruct (class_lookup _ _ _); [|reflexivity]. destruct H; eauto.
Qed.

(** ** The resolver, case by case *)

Lemma most_specific_both_typed M a b default ka kb :
  getattr M a "type_cls" = Ret ka ->
  getattr M b "type_cls" = Ret kb ->
  _most_specific M a b default =
    Ret (if issubclass (classes M) kb ka then Some (type_of b)
         else if issubclass (classes M) ka kb then Some (type_of a)
         else default).
Proof.
  intros Ha Hb. unfold _most_specific.
  rewrite (getattr_hasattr _ _ _ _ Ha), Ha, Hb. simpl.
  destruct (issubclass _ kb ka); [reflexivity|].
  destruct (issubclass _ ka kb); reflexivity.
Qed.

Lemma most_specific_second_typed M a b :
  hasattr M a "type_cls" = false ->
  hasattr M b "type_cls" = true ->
  _most_specific M a b None = Ret (Some (type_of b)).
Proof.
  intros Ha Hb. unfold _most_specific. rewrite Ha, Hb. reflexivity.
Qed.

Lemma most_specific_untyped M a b :
  hasattr M a "type_cls" = false ->
  hasattr M b "type_cls" = false ->
  _most_specific M a b None = Ret None.
Proof.
  intros Ha Hb. unfold _most_specific. rewrite Ha, Hb. reflexivity.
Qed.

Lemma most_specific_default M a b d :
  hasattr M a "type_cls" = false ->
  _most_specific M a b (Some d) = Ret (Some d).
Proof.
  intros Ha. unfold _most_specific. rewrite Ha. reflexivity.
Qed.

Lemma most_specific_first_typed_only M a b default :
  hasattr M a "type_cls" = true ->
  hasattr M b "type_cls" = false ->
  _most_specific M a b default = Raise (no_attribute M b "type_cls").
Proof.
  intros Ha Hb. unfold _most_specific.
  rewrite Ha, (not_hasattr_getattr _ _ _ Hb). reflexivity.
Qed.

(** ** The loaded module *)

Example loaded_globals :
  map (fun n => globals ppc_types !! n)
      ["Bits"; "UnsignedWord"; "SignedWord"; "SingleFloat"; "DoubleFloat"]
  = map Some [User.Bits; User.UnsignedWord; User.SignedWord;
              User.SingleFloat; User.DoubleFloat].
Proof. vm_compute. reflexivity. Qed.

Example loaded_class_names :
  map cls_name (drop 15 (classes ppc_types))
  = ["Bits"; "BitsEx"; "UnsignedWord"; "UnsignedWordEx"; "SignedWord";
     "SignedWordEx"; "SingleFloat"; "SingleFloatEx"; "DoubleFloat";
     "DoubleFloatEx"].
Proof. vm_compute. reflexivity. Qed.

(** Every class of the loaded module is one of its twenty-five. *)
Ltac each_class c :=
  do 25 (try (destruct c as [|c])).

Lemma issubclass_loaded c d :
  issubclass (classes ppc_types) c d = true -> c < 25.
Proof.
  intros H. destruct (decide (c < 25)) as [|Hge]; [assumption|].
  unfold issubclass in H. rewrite lookup_ge_None_2 in H; [discriminate|].
  change (length (classes ppc_types)) with 25. lia.
Qed.

(** C1. The resolver at a typed first operand and an untyped second one
    (a host integer), with no default: the docstring and the claim have it
    return the first operand's type; the guard tests the first operand
    twice, so the second operand's missing attribute is read and the call
    raises. *)
Theorem most_specific_typed_then_literal_raises :
  hasattr ppc_types a_bits "type_cls" = true /\
  hasattr ppc_types (PyInt 255) "type_cls" = false /\
  _most_specific ppc_types a_bits (PyInt 255) None
    = Raise (AttributeError "'int' object has no attribute 'type_cls'").
Proof. vm_compute. auto. Qed.

Example most_specific_sub_of_first :
  _most_specific ppc_types a_bits a_signed_word None = Ret (Some User.SignedWord).
Proof. vm_compute. reflexivity. Qed.

Example most_specific_sub_of_second :
  _most_specific ppc_types a_signed_expr a_bits (Some User.Bits)
    = Ret (Some User.SignedWordEx).
Proof. vm_compute. reflexivity. Qed.

Example most_specific_literal_then_typed :
  _most_specific ppc_types (PyInt 255) a_bits None = Ret (Some User.Bits).
Proof. vm_compute. reflexivity. Qed.

(** ** Operators of the integer kinds *)

Lemma instance_of_SignedWordType o :
  isinstance ppc_types o Cls.SignedWordType = true ->
  type_of o = Cls.SignedWordType \/ type_of o = User.SignedWord
  \/ type_of o = User.SignedWordEx.
Proof.
  unfold isinstance. generalize (type_of o) as c. intros c H.
  pose proof (issubclass_loaded _ _ H) as Hlt.
  each_class c; try lia; vm_compute in H; try discriminate H; auto.
Qed.

(** C8. On signed words, [a - b] builds the caller's own expression class
    around the subtract-from template with the operands swapped. *)
Theorem signed_subtract_swaps_operands (a b : pyobj) :
  isinstance ppc_types a Cls.SignedWordType = true ->
  isinstance ppc_types b Cls.SignedWordType = true ->
  getattr ppc_types a "expr_cls" = Ret User.SignedWordEx /\
  SignedWordType.__sub__ ppc_types a b
    = Ret (Expr_new User.SignedWordEx ppc.subfx [b; a]).
Proof.
  intros Ha Hb.
  assert (Hex : getattr ppc_types a "expr_cls" = Ret User.SignedWordEx).
  { unfold getattr.
    destruct (instance_of_SignedWordType _ Ha) as [-> | [-> | ->]];
      vm_compute; reflexivity. }
  split; [exact Hex|].
  unfold SignedWordType.__sub__. rewrite Hb, Hex. reflexivity.
Qed.

Lemma signed_subtract_swaps_operands_witness :
  getattr ppc_types a_signed_word "expr_cls" = Ret User.SignedWordEx /\
  SignedWordType.__sub__ ppc_types a_signed_word a_signed_expr
    = Ret (Expr_new User.SignedWordEx ppc.subfx [a_signed_expr; a_signed_word]).
Proof.
  apply (signed_subtract_swaps_operands a_signed_word a_signed_expr);
    vm_compute; reflexivity.
Defined.

(** C9. Bitwise operators on two typed operands whose kinds are unrelated:
    the resolver falls through to its unset default and the operator hands
    the operands to the register-register template with no result kind. *)
Theorem bitwise_on_unrelated_kinds (M : pymodule) (self other : pyobj) (ka kb : cref) :
  isinstance M self Cls.BitType = true ->
  isinstance M other Cls.BitType = true ->
  getattr M self "type_cls" = Ret ka ->
  getattr M other "type_cls" = Ret kb ->
  issubclass (classes M) ka kb = false ->
  issubclass (classes M) kb ka = false ->
  _most_specific M self other None = Ret None /\
  BitType.__and__ M self other = Ret (Inst_ex ppc.andx [self; other] None) /\
  BitType.__or__ M self other = Ret (Inst_ex ppc.orx [self; other] None) /\
  BitType.__xor__ M self other = Ret (Inst_ex ppc.xorx [self; other] None).
Proof.
  intros _ Hother Ha Hb Hab Hba.
  assert (Hres : _most_specific M self other None = Ret None).
  { rewrite (most_specific_both_typed _ _ _ _ _ _ Ha Hb), Hba, Hab. reflexivity. }
  unfold BitType.__and__, BitType.__or__, BitType.__xor__, BitType._upcast.
  rewrite Hother, Hres. auto.
Qed.

Lemma bitwise_on_unrelated_kinds_witness :
  _most_specific ppc_types an_unsigned_word a_signed_word None = Ret None /\
  BitType.__and__ ppc_types an_unsigned_word a_signed_word
    = Ret (Inst_ex ppc.andx [an_unsigned_word; a_signed_word] None) /\
  BitType.__or__ ppc_types an_unsigned_word a_signed_word
    = Ret (Inst_ex ppc.orx [an_unsigned_word; a_signed_word] None) /\
  BitType.__xor__ ppc_types an_unsigned_word a_signed_word
    = Ret (Inst_ex ppc.xorx [an_unsigned_word; a_signed_word] None).
Proof.
  apply (bitwise_on_unrelated_kinds ppc_types an_unsigned_word a_signed_word
           Cls.UnsignedWordType Cls.SignedWordType);
    vm_compute; reflexivity.
Defined.

Example bitwise_on_related_kinds :
  BitType.__and__ ppc_types a_bits a_signed_word
    = Ret (Inst_ex ppc.andx [a_bits; a_signed_word] (Some User.SignedWord)).
Proof. vm_compute. reflexivity. Qed.

(** Unsupported operand combinations *)

Lemma unsigned_divide_unsupported (M : pymodule) (self other : pyobj) :
  isinstance M other Cls.SignedWordType = false ->
  UnsignedWordType.__div__ M self other = Raise raise_NotImplemented.
Proof. intros H. unfold UnsignedWordType.__div__. rewrite H. reflexivity. Qed.

(** C5. Dividing an unsigned word by an unsigned word, a combination the
    algebra does not list: what is raised is the host's complaint about
    [raise NotImplemented], which names neither the operator nor a type. *)
Theorem unsigned_divide_raises_unnamed :
  isinstance ppc_types an_unsigned_word Cls.SignedWordType = false /\
  UnsignedWordType.__div__ ppc_types an_unsigned_word an_unsigned_word
    = Raise raise_NotImplemented /\
  mentions "__div__" (exn_message raise_NotImplemented) = false /\
  mentions "UnsignedWord" (exn_message raise_NotImplemented) = false.
Proof. vm_compute. auto. Qed.

Example shift_by_literal_unsupported :
  BitType.__lshift__ ppc_types a_bits (PyInt 3)
    = Raise (Exception "__lshift__ not implemented for <class 'corepy.arch.ppc.types.ppc_types.Bits'> and <type 'int'>").
Proof. vm_compute. reflexivity. Qed.

Example signed_divide_unsupported :
  SignedWordType.__div__ ppc_types a_signed_word an_unsigned_word
    = Raise (Exception "__div__ not implemented for <class 'corepy.arch.ppc.types.ppc_types.SignedWord'> and <class 'corepy.arch.ppc.types.ppc_types.UnsignedWord'>").
Proof. vm_compute. reflexivity. Qed.

Example signed_subtract_unsupported_names_add :
  SignedWordType.__sub__ ppc_types a_signed_word (PyInt 1)
    = Raise (Exception "__add__ not implemented for <class 'corepy.arch.ppc.types.ppc_types.SignedWord'> and <type 'int'>").
Proof. vm_compute. reflexivity. Qed.

(** ** The floating-point dispatcher *)

Lemma check_operands_same M a rest ka :
  getattr M a "var_cls" = Ret ka ->
  Forall (fun op => getattr M op "var_cls" = Ret ka) rest ->
  float_function.check_operands M a rest = Ret ().
Proof.
  intros Ha. induction 1 as [|op rest Hop _ IH]; simpl; [reflexivity|].
  rewrite Hop, Ha. simpl. rewrite bool_decide_eq_false_2 by tauto. exact IH.
Qed.

Lemma check_operands_differ M a rest ka :
  getattr M a "var_cls" = Ret ka ->
  Forall (fun op => hasattr M op "var_cls" = true) rest ->
  Exists (fun op => getattr M op "var_cls" <> Ret ka) rest ->
  float_function.check_operands M a rest = Raise mismatch.
Proof.
  intros Ha Htyped. induction Htyped as [|op rest Hop _ IH]; intros Hex.
  - inversion Hex.
  - simpl. destruct (hasattr_getattr _ _ _ Hop) as [k Hk].
    rewrite Hk, Ha. simpl. destruct (decide (k = ka)) as [->|Hne].
    + rewrite bool_decide_eq_false_2 by tauto.
      apply IH. inversion Hex; subst; [contradiction|assumption].
    + rewrite bool_decide_eq_true_2 by assumption. reflexivity.
Qed.

Lemma instance_of_SingleFloatType o :
  isinstance ppc_types o Cls.SingleFloatType = true ->
  getattr ppc_types o "var_cls" = Ret User.SingleFloat /\
  isinstance ppc_types o Cls.DoubleFloatType = false.
Proof.
  unfold isinstance, getattr. generalize (type_of o) as c. intros c H.
  pose proof (issubclass_loaded _ _ H) as Hlt.
  each_class c; try lia; vm_compute in H; try discriminate H;
    vm_compute; auto.
Qed.

Lemma instance_of_DoubleFloatType o :
  isinstance ppc_types o Cls.DoubleFloatType = true ->
  getattr ppc_types o "var_cls" = Ret User.DoubleFloat /\
  isinstance ppc_types o Cls.SingleFloatType = false.
Proof.
  unfold isinstance, getattr. generalize (type_of o) as c. intros c H.
  pose proof (issubclass_loaded _ _ H) as Hlt.
  each_class c; try lia; vm_compute in H; try discriminate H;
    vm_compute; auto.
Qed.

(** C4, as the code has it.  On typed operands the dispatcher raises one
    fixed exception when some operand's kind differs from the first
    operand's; otherwise it forwards all operands to the single- or the
    double-precision template, forcing the operands' own kind on the
    result, and refuses any other kind by name. *)
Theorem float_function_call (f : _float_function) (a : pyobj) (rest : list pyobj)
    (ka : cref) :
  getattr ppc_types a "var_cls" = Ret ka ->
  Forall (fun op => hasattr ppc_types op "var_cls" = true) rest ->
  (Exists (fun op => getattr ppc_types op "var_cls" <> Ret ka) rest ->
     float_function.__call__ ppc_types f (a :: rest) = Raise mismatch) /\
  (Forall (fun op => getattr ppc_types op "var_cls" = Ret ka) rest ->
     (isinstance ppc_types a Cls.SingleFloatType = true ->
        float_function.__call__ ppc_types f (a :: rest)
          = Ret (Inst_ex (single_func f) (a :: rest) (Some ka))) /\
     (isinstance ppc_types a Cls.DoubleFloatType = true ->
        float_function.__call__ ppc_types f (a :: rest)
          = Ret (Inst_ex (double_func f) (a :: rest) (Some ka))) /\
     (isinstance ppc_types a Cls.SingleFloatType = false ->
      isinstance ppc_types a Cls.DoubleFloatType = false ->
        float_function.__call__ ppc_types f (a :: rest)
          = Raise (Exception (name f +:+ " is not implemeneted for "
                              +:+ str_type ppc_types a)))).
Proof.
  intros Ha Htyped. split.
  - intros Hex. unfold float_function.__call__.
    rewrite (check_operands_differ _ _ _ _ Ha Htyped Hex). reflexivity.
  - intros Hsame. unfold float_function.__call__.
    rewrite (check_operands_same _ _ _ _ Ha Hsame).
    unfold mbind, res_bind.
    split; [|split].
    + intros Hs. rewrite Hs.
      destruct (instance_of_SingleFloatType _ Hs) as [Hv _].
      rewrite Hv in Ha. injection Ha as <-.
      change (global ppc_types "SingleFloat") with (Ret User.SingleFloat).
      reflexivity.
    + intros Hd.
      destruct (instance_of_DoubleFloatType _ Hd) as [Hv Hs].
      rewrite Hs, Hd. rewrite Hv in Ha. injection Ha as <-.
      change (global ppc_types "DoubleFloat") with (Ret User.DoubleFloat).
      reflexivity.
    + intros Hs Hd. rewrite Hs, Hd. reflexivity.
Qed.

Lemma float_function_call_witness :
  float_function.__call__ ppc_types fmadd [a_single; a_single; a_single]
    = Ret (Inst_ex ppc.fmaddsx [a_single; a_single; a_single]
                   (Some User.SingleFloat)).
Proof.
  assert (Ha : getattr ppc_types a_single "var_cls" = Ret User.SingleFloat)
    by (vm_compute; reflexivity).
  assert (Htyped : Forall (fun op => hasattr ppc_types op "var_cls" = true)
                          [a_single; a_single])
    by (repeat constructor).
  destruct (float_function_call fmadd a_single [a_single; a_single]
              User.SingleFloat Ha Htyped) as [_ Hsame].
  destruct Hsame as [Hsingle _]; [repeat constructor|].
  apply Hsingle. vm_compute. reflexivity.
Defined.

(** C4 as stated fails on the naming of the offending operand: the
    exception raised for a double among singles is the one raised for a
    signed word in another position, and its text does not contain the
    name of the offending operand's type. *)
Lemma float_function_mismatch_names_no_operand :
  float_function.__call__ ppc_types fmadd [a_single; a_double; a_single]
    = Raise mismatch /\
  float_function.__call__ ppc_types fmadd [a_single; a_single; a_signed_word]
    = Raise mismatch /\
  mentions (class_name (classes ppc_types) (type_of a_double))
           (exn_message mismatch) = false /\
  mentions (class_name (classes ppc_types) (type_of a_signed_word))
           (exn_message mismatch) = false.
Proof. vm_compute. auto. Qed.

Example float_function_on_doubles :
  float_function.__call__ ppc_types fsqrt [a_double]
    = Ret (Inst_ex ppc.fsqrtx [a_double] (Some User.DoubleFloat)).
Proof. vm_compute. reflexivity. Qed.

Example float_function_on_words :
  float_function.__call__ ppc_types fmsub [a_signed_word; a_signed_word]
    = Raise (Exception "fmsub is not implemeneted for <class 'corepy.arch.ppc.types.ppc_types.SignedWord'>").
Proof. vm_compute. reflexivity. Qed.

(** ** The dual-class factory *)

Lemma compute_mro_head cs self bases mro :
  compute_mro cs self bases = Some mro -> head mro = Some self.
Proof.
  unfold compute_mro. intros H.
  apply bind_Some in H as (mros & _ & H).
  apply bind_Some in H as (tail & _ & [= <-]). reflexivity.
Qed.

Lemma type_new_fresh n m bases d cs c cs' :
  type_new n m bases d cs = Ret (c, cs') ->
  c = length cs /\
  exists mro, head mro = Some c /\ cs' = cs ++ [PyClass n m bases mro d].
Proof.
  unfold type_new. destruct (compute_mro _ _ _) as [mro|] eqn:E; [|discriminate].
  intros [= <- <-]. split; [reflexivity|].
  exists mro. split; [exact (compute_mro_head _ _ _ _ E)|reflexivity].
Qed.

Lemma class_lookup_own cs c cl mro attr v :
  cs !! c = Some cl -> cls_mro cl = c :: mro -> cls_dict cl !! attr = Some v ->
  class_lookup cs c attr = Some v.
Proof.
  intros Hc Hmro Hv. unfold class_lookup. rewrite Hc. simpl.
  rewrite Hmro. simpl. rewrite Hc. simpl. rewrite Hv. reflexivity.
Qed.

(** One run of the factory on a class of the heap that heads its own
    resolution order: two fresh classes, linked to the kind and back. *)
Lemma make_user_type_links (M M' : pymodule) (n : string) (kind : cref)
    (cl : pyclass) (mro : list cref) :
  classes M !! kind = Some cl ->
  cls_mro cl = kind :: mro ->
  make_user_type n kind M = (Ret (), M') ->
  cross_linked M' kind (length (classes M)) (S (length (classes M))) /\
  globals M' !! n = Some (length (classes M)) /\
  length (classes M') = 2 + length (classes M).
Proof.
  destruct M as [cs g]. simpl.
  intros Hkind Hmro. unfold make_user_type. simpl. unfold cref in *.
  destruct (type_new n _ _ _ _) as [[v cs1]|] eqn:E1; [|discriminate].
  destruct (type_new (n +:+ "Ex") _ _ _ _) as [[e cs2]|] eqn:E2; [|discriminate].
  intros [= <-]. simpl.
  destruct (type_new_fresh _ _ _ _ _ _ _ E1) as (-> & mv & Hmv & ->).
  destruct (type_new_fresh _ _ _ _ _ _ _ E2) as (-> & me & Hme & ->).
  pose proof (lookup_lt_Some _ _ _ Hkind) as Hlt.
  destruct mv as [|v0 mv]; [discriminate|]. injection Hmv as ->.
  destruct me as [|e0 me]; [discriminate|]. injection Hme as ->.
  rewrite !length_app in *. simpl in *.
  unfold class_setattr. rewrite !length_alter, !length_app. simpl.
  unfold cref in *.
  assert (Hk : forall attr w,
    <[ "expr_cls" := S (length cs) ]> (<[ "var_cls" := length cs ]> (cls_dict cl))
      !! attr = Some w ->
    class_lookup
      (alter (fun c => PyClass (cls_name c) (cls_module c) (cls_bases c)
                         (cls_mro c) (<[ "expr_cls" := length cs + 1 ]> (cls_dict c)))
         kind
         (alter (fun c => PyClass (cls_name c) (cls_module c) (cls_bases c)
                            (cls_mro c) (<[ "var_cls" := length cs ]> (cls_dict c)))
            kind ((cs ++ [PyClass n (Some this_module) [Cls.Variable_; kind]
                            (length cs :: mv) {[ "type_cls" := kind ]}])
                  ++ [PyClass (n +:+ "Ex") (Some this_module) [Cls.Expression; kind]
                        (length cs + 1 :: me) {[ "type_cls" := kind ]}])))
      kind attr = Some w).
  { intros attr w Hw. eapply class_lookup_own.
    - rewrite !list_lookup_alter_eq.
      rewrite lookup_app_l by (rewrite length_app; simpl; lia).
      rewrite lookup_app_l by lia. rewrite Hkind. reflexivity.
    - simpl. exact Hmro.
    - simpl. replace (length cs + 1) with (S (length cs)) by lia. exact Hw. }
  unfold cross_linked. cbn [classes globals]. repeat split.
  - apply Hk. rewrite lookup_insert_ne by discriminate. apply lookup_insert_eq.
  - eapply class_lookup_own.
    + rewrite !list_lookup_alter_ne by lia.
      rewrite lookup_app_l by (rewrite length_app; simpl; lia).
      rewrite lookup_app_r by lia. rewrite Nat.sub_diag. reflexivity.
    + reflexivity.
    + simpl. apply lookup_singleton_eq.
  - apply Hk. apply lookup_insert_eq.
  - eapply class_lookup_own.
    + rewrite !list_lookup_alter_ne by lia.
      rewrite lookup_app_r by (rewrite length_app; simpl; lia).
      rewrite length_app. simpl.
      replace (S (length cs) - (length cs + 1)) with 0 by lia. reflexivity.
    + simpl. f_equal. lia.
    + simpl. apply lookup_singleton_eq.
  - apply lookup_insert_eq.
  - lia.
Qed.

(** C6, as the code has it.  For each kind the registration loop names, the
    loaded module holds one storage class and one expression class, linked
    to the kind and back, and the storage class is bound to the kind's
    name; running the factory again for that kind is not refused: it
    returns normally, leaving a second pair of classes linked to the kind. *)
Theorem registration_cross_links (n : string) (kind : cref) :
  In (n, kind) _user_types ->
  exists var_cls expr_cls,
    cross_linked ppc_types kind var_cls expr_cls /\
    globals ppc_types !! n = Some var_cls /\
    classes_named ppc_types n = 1 /\
    classes_named ppc_types (n +:+ "Ex") = 1 /\
    exists M',
      make_user_type n kind ppc_types = (Ret (), M') /\
      cross_linked M' kind 25 26 /\
      classes_named M' n = 2.
Proof.
  unfold _user_types. simpl.
  intros [H|[H|[H|[H|[H|[]]]]]]; injection H as <- <-;
    do 2 eexists; (repeat split; try (vm_compute; reflexivity));
    eexists; (repeat split; try (vm_compute; reflexivity)).
Qed.

Lemma registration_cross_links_witness :
  exists var_cls expr_cls,
    cross_linked ppc_types Cls.SignedWordType var_cls expr_cls /\
    globals ppc_types !! "SignedWord" = Some var_cls /\
    classes_named ppc_types "SignedWord" = 1 /\
    classes_named ppc_types ("SignedWord" +:+ "Ex") = 1 /\
    exists M',
      make_user_type "SignedWord" Cls.SignedWordType ppc_types = (Ret (), M') /\
      cross_linked M' Cls.SignedWordType 25 26 /\
      classes_named M' "SignedWord" = 2.
Proof.
  apply (registration_cross_links "SignedWord" Cls.SignedWordType).
  simpl. auto.
Defined.

(** C6 as stated fails on the duplicate registration: the factory run a
    second time for the generic-bits kind raises nothing and the kind then
    points at a storage class that did not exist before. *)
Lemma factory_rerun_is_no_error :
  exists M',
    make_user_type "Bits" Cls.BitType ppc_types = (Ret (), M') /\
    class_lookup (classes ppc_types) Cls.BitType "var_cls" = Some User.Bits /\
    class_lookup (classes M') Cls.BitType "var_cls" = Some 25 /\
    classes_named M' "Bits" = 2.
Proof.
  eexists. repeat split; vm_compute; reflexivity.
Qed.

Example registration_succeeds :
  register_user_types _user_types (PyModule declared_classes ∅)
    = (Ret (), ppc_types).
Proof. vm_compute. reflexivity. Qed.

(** ** Emission *)

Lemma set_literal_value_run M cls reg c v L W :
  exists W',
    BitType._set_literal_value M (PyVar cls reg (Some c) v) L W = (Ret (), W') /\
    only_touches c W W' /\
    streams W' c =
      Stream (instructions (streams W c) ++ literal_code reg L)
             (storage (streams W c)) (free_registers (streams W c)).
Proof.
  unfold BitType._set_literal_value, literal_code, bind, lift, ret,
    code.add, code.method, only_touches.
  cbn. destruct (Z.land L 65535 =? L)%Z; cbn.
  - eexists. split; [reflexivity|]. cbn. split; [split; [reflexivity|]|].
    + intros c' Hc'. apply fn_lookup_insert_ne. congruence.
    + rewrite fn_lookup_insert. reflexivity.
  - eexists. split; [reflexivity|]. cbn. split; [split; [reflexivity|]|].
    + intros c' Hc'. rewrite !fn_lookup_insert_ne by congruence. reflexivity.
    + rewrite !fn_lookup_insert. cbn. rewrite <- app_assoc. reflexivity.
Qed.

(** C2. Materializing the integer literal [L] appends to the value's
    stream the load of [L] as an immediate into the value's register, and
    after it the shifted add of [(L + 32768) >> 16] exactly when the low
    sixteen bits of [L] are not [L]; nothing else changes. *)
Theorem integer_literal_emission (M : pymodule) (cls : cref) (reg : nat)
    (c : sref) (v : pyobj) (L : Z) (W : world) :
  exists W',
    BitType._set_literal_value M (PyVar cls reg (Some c) v) L W = (Ret (), W') /\
    only_touches c W W' /\
    storage (streams W' c) = storage (streams W c) /\
    free_registers (streams W' c) = free_registers (streams W c) /\
    ((Z.land L 0xFFFF = L /\
      instructions (streams W' c)
        = instructions (streams W c) ++ [Instruction ppc.addi [Reg reg; Imm 0; Imm L]])
     \/
     (Z.land L 0xFFFF <> L /\
      instructions (streams W' c)
        = instructions (streams W c)
          ++ [Instruction ppc.addi [Reg reg; Imm 0; Imm L];
              Instruction ppc.addis
                [Reg reg; Reg reg; Imm (Z.shiftr (L + 32768) 16)]])).
Proof.
  destruct (set_literal_value_run M cls reg c v L W) as (W' & Hrun & Hframe & Hc).
  exists W'. rewrite Hc. cbn. repeat split; try assumption; try apply Hframe.
  unfold literal_code. destruct (Z.eqb_spec (Z.land L 65535) L) as [Heq|Hne].
  - left. split; [exact Heq|reflexivity].
  - right. split; [exact Hne|reflexivity].
Qed.

(** The low sixteen bits of [L] are [L] exactly on the unsigned 16-bit
    range. *)
Lemma low_bits_fit (L : Z) :
  Z.land L 0xFFFF = L <-> (0 <= L < 65536)%Z.
Proof.
  change 65535%Z with (Z.ones 16). rewrite Z.land_ones by lia.
  change (2 ^ 16)%Z with 65536%Z. split.
  - intros <-. apply Z.mod_pos_bound. lia.
  - intros H. apply Z.mod_small. exact H.
Qed.

(** The rounding in the high half makes up for the sign extension of the
    low half: the two immediates recombine to the literal. *)
Lemma halves_recombine (L : Z) :
  (sign_extend_16 L + Z.shiftr (L + 32768) 16 * 65536 = L)%Z.
Proof.
  unfold sign_extend_16. rewrite Z.shiftr_div_pow2 by lia.
  change (2 ^ 16)%Z with 65536%Z.
  pose proof (Z.div_mod (L + 32768) 65536 ltac:(lia)) as Hdm.
  pose proof (Z.mod_pos_bound (L + 32768) 65536 ltac:(lia)) as Hr.
  pose proof (Z.div_mod L 65536 ltac:(lia)) as Hdm'.
  pose proof (Z.mod_pos_bound L 65536 ltac:(lia)) as Hr'.
  destruct (Z.ltb_spec (L mod 65536) 32768); nia.
Qed.

Example literal_in_one_instruction :
  literal_code 3 31 = [low_half 3 31].
Proof. reflexivity. Qed.

Example literal_in_two_instructions :
  literal_code 3 0x0F0F0FFF
    = [low_half 3 0x0F0F0FFF;
       Instruction ppc.addis [Reg 3; Reg 3; Imm 0x0F0F]].
Proof. reflexivity. Qed.

Example negative_literal_in_two_instructions :
  literal_code 3 (-1)
    = [low_half 3 (-1); Instruction ppc.addis [Reg 3; Reg 3; Imm 0]].
Proof. reflexivity. Qed.

(** ** The scratch register of the float literals *)

Lemma same_free_refl W : same_free W W.
Proof. intros c. reflexivity. Qed.

Lemma same_free_trans W1 W2 W3 :
  same_free W1 W2 -> same_free W2 W3 -> same_free W1 W3.
Proof. intros H12 H23 c. rewrite H23. apply H12. Qed.

Lemma bind_inv {A B} (m : action A) (k : A -> action B) W r W' :
  bind m k W = (r, W') ->
  (exists a W1, m W = (Ret a, W1) /\ k a W1 = (r, W')) \/
  (exists e, m W = (Raise e, W') /\ r = Raise e).
Proof.
  unfold bind. destruct (m W) as [[a|e] W1].
  - intros H. left. eauto.
  - intros [= <- <-]. right. eauto.
Qed.

Lemma bind_ret_inv {A B} (m : action A) (k : A -> action B) W b W' :
  bind m k W = (Ret b, W') ->
  exists a W1, m W = (Ret a, W1) /\ k a W1 = (Ret b, W').
Proof.
  intros H. destruct (bind_inv _ _ _ _ _ H) as [?|(e & _ & ?)];
    [assumption|discriminate].
Qed.

Lemma lift_inv {A} (r : res A) W r' W' :
  lift r W = (r', W') -> r' = r /\ W' = W.
Proof. unfold lift. intros [= <- <-]. auto. Qed.

Ltac heap :=
  unfold insert, fn_insert;
  repeat (match goal with
          | |- context [decide (?a = ?b)] =>
              destruct (decide (a = b)); [subst|]
          end;
          try match goal with
              | n : ?x <> ?x |- _ => destruct n; reflexivity
              end);
  cbn.

Lemma method_frame {A} target n
    (f : InstructionStream -> res A * InstructionStream) W r W' :
  (forall s, free_registers (snd (f s)) = free_registers s) ->
  code.method target n f W = (r, W') -> same_free W W'.
Proof.
  intros Hf. unfold code.method. destruct target as [c|].
  - destruct (f (streams W c)) as [r0 s'] eqn:E. intros [= <- <-] c'.
    cbn. heap; [|reflexivity]. rewrite <- (Hf (streams W c')), E. reflexivity.
  - intros [= <- <-]. apply same_free_refl.
Qed.

Lemma add_frame target i W r W' :
  code.add target i W = (r, W') -> same_free W W'.
Proof. apply method_frame. reflexivity. Qed.

Lemma add_storage_frame target a W r W' :
  code.add_storage target a W = (r, W') -> same_free W W'.
Proof. apply method_frame. reflexivity. Qed.

Lemma acquire_register_inv target W r W' :
  code.acquire_register target W = (Ret r, W') ->
  exists c, target = Some c /\
    free_registers (streams W c) = r :: free_registers (streams W' c) /\
    forall c', c' <> c ->
      free_registers (streams W' c') = free_registers (streams W c').
Proof.
  unfold code.acquire_register, code.method. destruct target as [c|];
    [|discriminate].
  destruct (free_registers (streams W c)) as [|r0 rest] eqn:E; [discriminate|].
  intros [= <- <-]. exists c. cbn. repeat split.
  - heap. exact E.
  - intros c' Hc'. heap. reflexivity.
Qed.

Lemma release_register_inv c r W res W' :
  code.release_register (Some c) r W = (res, W') ->
  free_registers (streams W' c) = r :: free_registers (streams W c) /\
  forall c', c' <> c ->
    free_registers (streams W' c') = free_registers (streams W c').
Proof.
  unfold code.release_register, code.method. intros [= <- <-]. cbn. split.
  - heap. reflexivity.
  - intros c' Hc'. heap. reflexivity.
Qed.

Lemma set_literal_value_frame M self L W r W' :
  BitType._set_literal_value M self L W = (r, W') -> same_free W W'.
Proof.
  unfold BitType._set_literal_value. intros H.
  destruct (bind_inv _ _ _ _ _ H) as [(target & W1 & H1 & H2)|(e & H1 & _)];
    apply lift_inv in H1 as [_ ->]; [|apply same_free_refl].
  clear H.
  destruct (bind_inv _ _ _ _ _ H2) as [(reg & W2 & H3 & H4)|(e & H3 & _)];
    apply lift_inv in H3 as [_ ->]; [|apply same_free_refl].
  clear H2.
  destruct (bind_inv _ _ _ _ _ H4) as [(u & W3 & H5 & H6)|(e & H5 & _)];
    apply add_frame in H5; [|exact H5].
  apply (same_free_trans _ _ _ H5).
  destruct (negb _).
  - exact (add_frame _ _ _ _ _ H6).
  - injection H6 as _ <-. apply same_free_refl.
Qed.

Lemma Bits_frame M value reg W r W' :
  Bits M value reg W = (r, W') -> same_free W W'.
Proof.
  unfold Bits. intros H.
  destruct (bind_inv _ _ _ _ _ H) as [(cls & W1 & H1 & H2)|(e & H1 & _)];
    apply lift_inv in H1 as [_ ->]; [|apply same_free_refl].
  clear H.
  destruct (bind_inv _ _ _ _ _ H2) as [(target & W2 & H3 & H4)|(e & H3 & _)];
    injection H3 as _ <-; [|apply same_free_refl].
  clear H2.
  destruct (bind_inv _ _ _ _ _ H4) as [(u & W3 & H5 & H6)|(e & H5 & _)];
    apply set_literal_value_frame in H5; [|exact H5].
  injection H6 as _ <-. exact H5.
Qed.

Ltac next_step H a W1 H1 :=
  cbv beta zeta in H; apply bind_ret_inv in H as (a & W1 & H1 & H).
Ltac next_pure H a :=
  let W1 := fresh "W" in
  let H1 := fresh "H" in
  next_step H a W1 H1; apply lift_inv in H1 as [_ ->].

(** The body shared by the two float routines, from the pool entry on. *)
Lemma scratch_released M target storage load self W W' :
  (code.add_storage target storage ;;;
   r_storage <- code.acquire_register target ;;
   addr <- Bits M (arr_address storage) r_storage ;;
   reg <- lift (attr_reg M self) ;;
   addr_reg <- lift (attr_reg M addr) ;;
   (code.add target (Instruction load [Reg reg; Reg addr_reg; Imm 0])) ;;;
   code.release_register target r_storage) W = (Ret (), W') ->
  same_free W W'.
Proof.
  intros H.
  next_step H u W1 Hsto. apply add_storage_frame in Hsto.
  next_step H r_s W2 Hacq.
  apply acquire_register_inv in Hacq as (c & -> & Hpop & Hacq).
  next_step H addr W3 Hbits. apply Bits_frame in Hbits.
  next_pure H reg. next_pure H addr_reg.
  next_step H u' W4 Hadd. apply add_frame in Hadd.
  apply release_register_inv in H as [Hpush Hrel].
  intros c'. destruct (decide (c' = c)) as [->|Hne].
  - rewrite Hpush, Hadd, Hbits, <- Hpop. apply Hsto.
  - rewrite (Hrel _ Hne), Hadd, Hbits, (Hacq _ Hne). apply Hsto.
Qed.

Lemma single_literal_scoped M self value address W W' :
  SingleFloatType._set_literal_value M self value address W = (Ret (), W') ->
  same_free W W'.
Proof.
  unfold SingleFloatType._set_literal_value. intros H.
  next_pure H v. next_pure H x. next_pure H target.
  exact (scratch_released _ _ _ _ _ _ _ H).
Qed.

Lemma double_literal_scoped M self value address W W' :
  DoubleFloatType._set_literal_value M self value address W = (Ret (), W') ->
  same_free W W'.
Proof.
  unfold DoubleFloatType._set_literal_value. intros H.
  next_pure H v. next_pure H x. next_pure H target.
  exact (scratch_released _ _ _ _ _ _ _ H).
Qed.

(** C3, as the code has it.  A float literal materialization that returns
    leaves every allocator with the free registers it had: the scratch
    register it acquired is back in its pool. *)
Theorem float_literal_scratch_released (M : pymodule) (self value : pyobj)
    (address : Z) (W W' : world) :
  SingleFloatType._set_literal_value M self value address W = (Ret (), W')
  \/ DoubleFloatType._set_literal_value M self value address W = (Ret (), W') ->
  forall c,
    free_registers (streams W' c) = free_registers (streams W c) /\
    free_count W' c = free_count W c.
Proof.
  intros H c.
  assert (Hfree : same_free W W').
  { destruct H as [H|H];
      [exact (single_literal_scoped _ _ _ _ _ _ H)
      |exact (double_literal_scoped _ _ _ _ _ _ H)]. }
  unfold free_count. rewrite (Hfree c). auto.
Qed.

Lemma float_literal_scratch_released_witness :
  free_registers
    (streams (snd (SingleFloatType._set_literal_value
                     ppc_types a_single PyNone 4096 one_active)) 0)
  = free_registers (streams one_active 0) /\
  free_count (snd (SingleFloatType._set_literal_value
                     ppc_types a_single PyNone 4096 one_active)) 0
  = free_count one_active 0.
Proof.
  apply (float_literal_scratch_released ppc_types a_single PyNone 4096 one_active).
  left. vm_compute. reflexivity.
Defined.

(** C3 as stated fails on the paths that raise: with no active target the
    address cannot be materialized, the routine raises after it has taken
    the scratch register, and the register stays out of the pool. *)
Lemma float_literal_leaks_scratch_on_raise :
  fst (SingleFloatType._set_literal_value ppc_types a_single (PyFloat one) 4096
         none_active)
    = Raise (AttributeError "'NoneType' object has no attribute 'add'") /\
  free_count none_active 0 = 3 /\
  free_count (snd (SingleFloatType._set_literal_value
                     ppc_types a_single (PyFloat one) 4096 none_active)) 0 = 2 /\
  fst (DoubleFloatType._set_literal_value ppc_types a_double (PyFloat two) 4096
         none_active)
    = Raise (AttributeError "'NoneType' object has no attribute 'add'") /\
  free_count (snd (DoubleFloatType._set_literal_value
                     ppc_types a_double (PyFloat two) 4096 none_active)) 0 = 2.
Proof. vm_compute. auto. Qed.

(** ** The float literals and their argument *)

Lemma Bits_run M value reg W b t :
  global M "Bits" = Ret b ->
  active_code W = Some t ->
  exists W',
    Bits M value reg W = (Ret (PyVar b reg (Some t) (PyInt value)), W') /\
    only_touches t W W' /\
    streams W' t =
      Stream (instructions (streams W t) ++ literal_code reg value)
             (storage (streams W t)) (free_registers (streams W t)).
Proof.
  intros Hb Ht.
  destruct (set_literal_value_run M b reg t (PyInt value) value W)
    as (W' & Hrun & Hframe & Hc).
  exists W'. split; [|split; assumption].
  unfold Bits, bind, lift, get_active_code, ret. rewrite Hb, Ht, Hrun.
  reflexivity.
Qed.

(** The body shared by the two float routines, run on a stream with a free
    register while some stream is the active target. *)
Lemma float_literal_body_run M c t entry load cls reg v W r_s rest b :
  global M "Bits" = Ret b ->
  active_code W = Some t ->
  free_registers (streams W c) = r_s :: rest ->
  exists W',
    (code.add_storage (Some c) entry ;;;
     r_storage <- code.acquire_register (Some c) ;;
     addr <- Bits M (arr_address entry) r_storage ;;
     reg' <- lift (attr_reg M (PyVar cls reg (Some c) v)) ;;
     addr_reg <- lift (attr_reg M addr) ;;
     (code.add (Some c) (Instruction load [Reg reg'; Reg addr_reg; Imm 0])) ;;;
     code.release_register (Some c) r_storage) W = (Ret (), W') /\
    storage (streams W' c) = storage (streams W c) ++ [entry] /\
    instructions (streams W' c)
      = instructions (streams W c)
        ++ (if decide (t = c) then literal_code r_s (arr_address entry) else [])
        ++ [Instruction load [Reg reg; Reg r_s; Imm 0]] /\
    (t <> c ->
     instructions (streams W' t)
       = instructions (streams W t) ++ literal_code r_s (arr_address entry)).
Proof.
  intros Hb Ht Hfree.
  unfold bind at 1 2. unfold code.add_storage, code.acquire_register, code.method.
  cbn. rewrite fn_lookup_insert. cbn. rewrite Hfree.
  match goal with
  | |- context [bind (Bits M ?value ?r) _ ?W2] =>
      destruct (Bits_run M value r W2 b t Hb Ht) as (W3 & Hrun & Hframe & Hat);
      destruct Hframe as [Hact Hrest]
  end.
  unfold bind at 1. rewrite Hrun.
  unfold bind, lift, code.add, code.release_register, code.method. cbn.
  eexists. split; [reflexivity|]. cbn. rewrite !fn_lookup_insert. cbn.
  destruct (decide (t = c)) as [->|Hne].
  - rewrite Hat. cbn. rewrite !fn_lookup_insert. cbn.
    repeat split; [|contradiction]. rewrite <- app_assoc. reflexivity.
  - rewrite (Hrest c) by congruence. cbn. rewrite !fn_lookup_insert. cbn.
    repeat split. intros _.
    rewrite !fn_lookup_insert_ne by congruence.
    rewrite Hat. cbn. rewrite !fn_lookup_insert_ne by congruence. reflexivity.
Qed.

(** C10. Both float routines build the pool entry from the value stored on
    the object, whatever argument they are passed: the entry holds the
    pattern of [float(self.value)] in the array's own width, and the load
    emitted into the value's stream reads, at offset zero, from the scratch
    register that the address of that entry was materialized into. *)
Theorem float_literal_uses_stored_value (M : pymodule) (cls : cref) (reg : nat)
    (c t : sref) (v value : pyobj) (address : Z) (W : world) (x : spec_float)
    (r_s : nat) (rest : list nat) (b : cref) :
  py_float v = Ret x ->
  global M "Bits" = Ret b ->
  active_code W = Some t ->
  free_registers (streams W c) = r_s :: rest ->
  (SingleFloatType._set_literal_value M (PyVar cls reg (Some c) v) value address W
     = SingleFloatType._set_literal_value M (PyVar cls reg (Some c) v) PyNone address W
   /\
   exists W' entry,
     SingleFloatType._set_literal_value M (PyVar cls reg (Some c) v) value address W
       = (Ret (), W') /\
     storage (streams W' c) = storage (streams W c) ++ [entry] /\
     arr_address entry = address /\
     itemsize (arr_typecode entry) = 4%Z /\
     array_bits entry = float_bits 24 128 (to_single x) /\
     instructions (streams W' c)
       = instructions (streams W c)
         ++ (if decide (t = c) then literal_code r_s address else [])
         ++ [Instruction ppc.lfs [Reg reg; Reg r_s; Imm 0]] /\
     (t <> c ->
      instructions (streams W' t)
        = instructions (streams W t) ++ literal_code r_s address))
  /\
  (DoubleFloatType._set_literal_value M (PyVar cls reg (Some c) v) value address W
     = DoubleFloatType._set_literal_value M (PyVar cls reg (Some c) v) PyNone address W
   /\
   exists W' entry,
     DoubleFloatType._set_literal_value M (PyVar cls reg (Some c) v) value address W
       = (Ret (), W') /\
     storage (streams W' c) = storage (streams W c) ++ [entry] /\
     arr_address entry = address /\
     itemsize (arr_typecode entry) = 8%Z /\
     array_bits entry = float_bits 53 1024 x /\
     instructions (streams W' c)
       = instructions (streams W c)
         ++ (if decide (t = c) then literal_code r_s address else [])
         ++ [Instruction ppc.lfd [Reg reg; Reg r_s; Imm 0]] /\
     (t <> c ->
      instructions (streams W' t)
        = instructions (streams W t) ++ literal_code r_s address)).
Proof.
  intros Hx Hb Ht Hfree. split; (split; [reflexivity|]).
  - destruct (float_literal_body_run M c t (array_new tc_f x address) ppc.lfs
                cls reg v W r_s rest b Hb Ht Hfree)
      as (W' & Hrun & Hsto & Hins & Hother).
    exists W', (array_new tc_f x address).
    split; [|repeat split; assumption].
    unfold SingleFloatType._set_literal_value.
    unfold bind at 1 2 3. unfold lift at 1 2 3. cbn [attr_value attr_code].
    rewrite Hx. exact Hrun.
  - destruct (float_literal_body_run M c t (array_new tc_d x address) ppc.lfd
                cls reg v W r_s rest b Hb Ht Hfree)
      as (W' & Hrun & Hsto & Hins & Hother).
    exists W', (array_new tc_d x address).
    split; [|repeat split; assumption].
    unfold DoubleFloatType._set_literal_value.
    unfold bind at 1 2 3. unfold lift at 1 2 3. cbn [attr_value attr_code].
    rewrite Hx. exact Hrun.
Qed.

Lemma float_literal_uses_stored_value_witness :
  exists W' entry,
    SingleFloatType._set_literal_value ppc_types a_single (PyFloat two) 4096
      one_active = (Ret (), W') /\
    storage (streams W' 0) = [entry] /\
    arr_address entry = 4096%Z /\
    array_bits entry = 0x3F800000%Z /\
    instructions (streams W' 0)
      = [Instruction ppc.addi [Reg 3; Imm 0; Imm 4096];
         Instruction ppc.lfs [Reg 1; Reg 3; Imm 0]].
Proof.
  destruct (float_literal_uses_stored_value ppc_types User.SingleFloat 1 0 0
              (PyFloat one) (PyFloat two) 4096 one_active one 3 [4; 5] User.Bits)
    as [[_ (W' & entry & Hrun & Hsto & Haddr & _ & Hbits & Hins & _)] _];
    try reflexivity.
  exists W', entry. repeat split; assumption.
Defined.

Example double_entry_pattern :
  array_bits (array_new tc_d two 0) = 0x4000000000000000%Z.
Proof. reflexivity. Qed.

(** ** The active target of the framebuffer demo *)

Lemma synthesize_restores_on_return draw self code W W' :
  FBDraw.synthesize draw self code W = (Ret (), W') ->
  active_code W' = active_code W.
Proof.
  unfold FBDraw.synthesize. intros H.
  next_step H old W1 Hget. injection Hget as <- <-.
  next_step H u1 W2 Hset.
  next_step H u2 W3 Hbuf.
  next_step H u3 W4 Hstr.
  next_step H u4 W5 Hdraw.
  injection H as <-. reflexivity.
Qed.

(** C7. Synthesis on a drawer whose buffers, or whose stride, were never
    set, while stream 0 is the active target: the routine raises after it
    has installed its own stream, and the slot is left holding that stream,
    not the one saved on entry. *)
Theorem synthesize_failure_keeps_new_target
    (draw : FBDraw.t -> sref -> action unit) (sigma : sref -> InstructionStream) :
  FBDraw.synthesize draw FBDraw.__init__ 1 (World sigma (Some 0))
    = (Raise (Exception "Please set buffers"), World sigma (Some 1)) /\
  FBDraw.synthesize draw (FBDraw.set_buffers FBDraw.__init__ 0 4096) 1
      (World sigma (Some 0))
    = (Raise (Exception "Please set stride"), World sigma (Some 1)).
Proof. split; reflexivity. Qed.

(** * Further properties *)

(** ** The resolver *)

(** X1. The resolver raises exactly when its first operand has a
    [type_cls] and its second has none, whatever the default. *)
Theorem most_specific_raises_iff (M : pymodule) (a b : pyobj) (default : option cref) :
  (exists e, _most_specific M a b default = Raise e) <->
  hasattr M a "type_cls" = true /\ hasattr M b "type_cls" = false.
Proof.
  split.
  - intros [e He].
    destruct (hasattr M a "type_cls") eqn:Ha.
    + split; [reflexivity|].
      destruct (hasattr M b "type_cls") eqn:Hb; [|reflexivity].
      destruct (hasattr_getattr _ _ _ Ha) as [ka Hka].
      destruct (hasattr_getattr _ _ _ Hb) as [kb Hkb].
      rewrite (most_specific_both_typed _ _ _ _ _ _ Hka Hkb) in He.
      discriminate He.
    + unfold _most_specific in He. rewrite Ha in He. simpl in He.
      destruct (bool_decide (default = None));
        [destruct (hasattr M b "type_cls")|]; discriminate He.
  - intros [Ha Hb]. eexists.
    apply (most_specific_first_typed_only _ _ _ _ Ha Hb).
Qed.

(** X2. Whatever the resolver returns is the type of one of its operands
    or the default: it never makes up a kind. *)
Theorem most_specific_result_among (M : pymodule) (a b : pyobj)
    (default r : option cref) :
  _most_specific M a b default = Ret r ->
  r = Some (type_of a) \/ r = Some (type_of b) \/ r = default.
Proof.
  unfold _most_specific.
  destruct (hasattr M a "type_cls") eqn:Ha; simpl.
  - destruct (getattr M b "type_cls") as [kb|]; [|discriminate]. simpl.
    destruct (getattr M a "type_cls") as [ka|]; [|discriminate]. simpl.
    destruct (issubclass _ kb ka); [intros [= <-]; auto|].
    destruct (issubclass _ ka kb); intros [= <-]; auto.
  - destruct (bool_decide (default = None));
      [destruct (hasattr M b "type_cls")|]; intros [= <-]; auto.
Qed.

Lemma most_specific_result_among_witness :
  Some User.SignedWord = Some (type_of a_bits)
  \/ Some User.SignedWord = Some (type_of a_signed_word)
  \/ Some User.SignedWord = None.
Proof.
  apply (most_specific_result_among ppc_types a_bits a_signed_word None).
  vm_compute. reflexivity.
Defined.

(** X3. On two operands of one and the same kind the resolver returns the
    type of the second: a storage value met by a computed value of its
    kind resolves to the computed value's class, and the other way round. *)
Theorem most_specific_same_kind (M : pymodule) (a b : pyobj)
    (default : option cref) (k : cref) :
  getattr M a "type_cls" = Ret k ->
  getattr M b "type_cls" = Ret k ->
  issubclass (classes M) k k = true ->
  _most_specific M a b default = Ret (Some (type_of b)).
Proof.
  intros Ha Hb Hk.
  rewrite (most_specific_both_typed _ _ _ _ _ _ Ha Hb), Hk. reflexivity.
Qed.

Lemma most_specific_same_kind_witness :
  _most_specific ppc_types a_signed_word a_signed_expr None
    = Ret (Some User.SignedWordEx) /\
  _most_specific ppc_types a_signed_expr a_signed_word None
    = Ret (Some User.SignedWord).
Proof.
  split.
  - apply (most_specific_same_kind ppc_types a_signed_word a_signed_expr None
             Cls.SignedWordType); vm_compute; reflexivity.
  - apply (most_specific_same_kind ppc_types a_signed_expr a_signed_word None
             Cls.SignedWordType); vm_compute; reflexivity.
Defined.

(** ** Bitwise operators and shifts *)

(** X4. On typed operands of the generic-bits hierarchy the bitwise
    operators never raise: each hands both operands, in order, to its
    register-register template, and the kind it forces is the type of one
    of the operands or none at all. *)
Theorem bitwise_total_on_typed (M : pymodule) (self other : pyobj) :
  hasattr M self "type_cls" = true ->
  hasattr M other "type_cls" = true ->
  isinstance M other Cls.BitType = true ->
  exists k,
    (k = Some (type_of self) \/ k = Some (type_of other) \/ k = None) /\
    BitType.__and__ M self other = Ret (Inst_ex ppc.andx [self; other] k) /\
    BitType.__or__ M self other = Ret (Inst_ex ppc.orx [self; other] k) /\
    BitType.__xor__ M self other = Ret (Inst_ex ppc.xorx [self; other] k).
Proof.
  intros Hs Ho Hbit.
  destruct (hasattr_getattr _ _ _ Hs) as [ka Hka].
  destruct (hasattr_getattr _ _ _ Ho) as [kb Hkb].
  pose proof (most_specific_both_typed M self other None ka kb Hka Hkb) as Hres.
  eexists. split.
  2:{ unfold BitType.__and__, BitType.__or__, BitType.__xor__, BitType._upcast.
      rewrite Hbit, Hres. auto. }
  destruct (issubclass _ kb ka); [auto|]. destruct (issubclass _ ka kb); auto.
Qed.

Lemma bitwise_total_on_typed_witness :
  exists k,
    (k = Some (type_of a_bits) \/ k = Some (type_of a_signed_expr) \/ k = None) /\
    BitType.__and__ ppc_types a_bits a_signed_expr
      = Ret (Inst_ex ppc.andx [a_bits; a_signed_expr] k) /\
    BitType.__or__ ppc_types a_bits a_signed_expr
      = Ret (Inst_ex ppc.orx [a_bits; a_signed_expr] k) /\
    BitType.__xor__ ppc_types a_bits a_signed_expr
      = Ret (Inst_ex ppc.xorx [a_bits; a_signed_expr] k).
Proof.
  apply (bitwise_total_on_typed ppc_types a_bits a_signed_expr);
    vm_compute; reflexivity.
Defined.

Lemma literal_is_no_bit_value (other : pyobj) :
  In (type_of other) _int_literals ->
  isinstance ppc_types other Cls.BitType = false /\
  isinstance_any ppc_types other _int_literals = true.
Proof.
  intros H. unfold isinstance_any, isinstance.
  unfold _int_literals in H. cbn [In] in H.
  destruct H as [<-|[<-|[<-|[]]]]; vm_compute; auto.
Qed.

(** X5. In the loaded module, a bitwise operator met with a host literal
    (an int, a long or an [Immediate]) picks the immediate template and
    forces the left operand's own storage class; the resolver has no say. *)
Theorem bitwise_with_literal (self other : pyobj) (v : cref) :
  getattr ppc_types self "var_cls" = Ret v ->
  In (type_of other) _int_literals ->
  BitType.__and__ ppc_types self other = Ret (Inst_ex ppc.andi [self; other] (Some v)) /\
  BitType.__or__ ppc_types self other = Ret (Inst_ex ppc.ori [self; other] (Some v)) /\
  BitType.__xor__ ppc_types self other = Ret (Inst_ex ppc.xori [self; other] (Some v)).
Proof.
  intros Hv Hlit. destruct (literal_is_no_bit_value _ Hlit) as [Hbit Hany].
  unfold BitType.__and__, BitType.__or__, BitType.__xor__.
  rewrite Hbit, Hany, Hv. auto.
Qed.

Lemma bitwise_with_literal_witness :
  BitType.__and__ ppc_types a_signed_word (PyLong 255)
    = Ret (Inst_ex ppc.andi [a_signed_word; PyLong 255] (Some User.SignedWord)) /\
  BitType.__or__ ppc_types a_signed_word (PyLong 255)
    = Ret (Inst_ex ppc.ori [a_signed_word; PyLong 255] (Some User.SignedWord)) /\
  BitType.__xor__ ppc_types a_signed_word (PyLong 255)
    = Ret (Inst_ex ppc.xori [a_signed_word; PyLong 255] (Some User.SignedWord)).
Proof.
  apply (bitwise_with_literal a_signed_word (PyLong 255) User.SignedWord).
  - vm_compute. reflexivity.
  - simpl. auto.
Defined.

(** X6. Shifts keep the left operand's kind: by any value of the
    generic-bits hierarchy they pick the register-register template and
    force the left operand's storage class, however specific the right
    operand is; by a host literal they raise, naming the shift. *)
Theorem shift_keeps_left_kind (self other : pyobj) (v : cref) :
  getattr ppc_types self "var_cls" = Ret v ->
  (isinstance ppc_types other Cls.BitType = true ->
     BitType.__lshift__ ppc_types self other
       = Ret (Inst_ex ppc.slwx [self; other] (Some v)) /\
     BitType.__rshift__ ppc_types self other
       = Ret (Inst_ex ppc.srwx [self; other] (Some v))) /\
  (In (type_of other) _int_literals ->
     BitType.__lshift__ ppc_types self other
       = Raise (not_implemented ppc_types "__lshift__" self other) /\
     BitType.__rshift__ ppc_types self other
       = Raise (not_implemented ppc_types "__rshift__" self other)).
Proof.
  intros Hv. unfold BitType.__lshift__, BitType.__rshift__. split.
  - intros ->. rewrite Hv. auto.
  - intros Hlit. destruct (literal_is_no_bit_value _ Hlit) as [-> _]. auto.
Qed.

Lemma shift_keeps_left_kind_witness :
  BitType.__lshift__ ppc_types a_bits a_signed_word
    = Ret (Inst_ex ppc.slwx [a_bits; a_signed_word] (Some User.Bits)) /\
  BitType.__rshift__ ppc_types a_bits a_signed_word
    = Ret (Inst_ex ppc.srwx [a_bits; a_signed_word] (Some User.Bits)).
Proof.
  refine (proj1 (shift_keeps_left_kind a_bits a_signed_word User.Bits _) _);
    vm_compute; reflexivity.
Defined.

(** ** Word arithmetic *)

Lemma signed_is_not_unsigned o :
  isinstance ppc_types o Cls.SignedWordType = true ->
  isinstance ppc_types o Cls.UnsignedWordType = false /\
  isinstance_any ppc_types o [Cls.Immediate; Cls.int] = false.
Proof.
  unfold isinstance_any, existsb, isinstance. generalize (type_of o) as c.
  intros c H. pose proof (issubclass_loaded _ _ H) as Hlt.
  each_class c; try lia; vm_compute in H; try discriminate H;
    vm_compute; auto.
Qed.

Lemma unsigned_is_not_signed o :
  isinstance ppc_types o Cls.UnsignedWordType = true ->
  isinstance ppc_types o Cls.SignedWordType = false /\
  isinstance_any ppc_types o [Cls.Immediate; Cls.int] = false.
Proof.
  unfold isinstance_any, existsb, isinstance. generalize (type_of o) as c.
  intros c H. pose proof (issubclass_loaded _ _ H) as Hlt.
  each_class c; try lia; vm_compute in H; try discriminate H;
    vm_compute; auto.
Qed.

Lemma long_is_no_word z :
  isinstance ppc_types (PyLong z) Cls.UnsignedWordType = false /\
  isinstance ppc_types (PyLong z) Cls.SignedWordType = false /\
  isinstance_any ppc_types (PyLong z) [Cls.Immediate; Cls.int] = false.
Proof. vm_compute. auto. Qed.

Lemma int_is_no_word z :
  isinstance ppc_types (PyInt z) Cls.UnsignedWordType = false /\
  isinstance ppc_types (PyInt z) Cls.SignedWordType = false /\
  isinstance_any ppc_types (PyInt z) [Cls.Immediate; Cls.int] = true.
Proof. vm_compute. auto. Qed.

(** X7. Word addition and multiplication take a host int as an immediate,
    building the caller's expression class around the immediate template,
    and refuse a host long, which the bitwise operators accept. *)
Theorem word_arithmetic_int_not_long (self : pyobj) (z : Z) (e : cref) :
  getattr ppc_types self "expr_cls" = Ret e ->
  (UnsignedWordType.__add__ ppc_types self (PyInt z)
     = Ret (Expr_new e ppc.addi [self; PyInt z]) /\
   SignedWordType.__add__ ppc_types self (PyInt z)
     = Ret (Expr_new e ppc.addi [self; PyInt z]) /\
   SignedWordType.__mul__ ppc_types self (PyInt z)
     = Ret (Expr_new e ppc.mulli [self; PyInt z])) /\
  (UnsignedWordType.__add__ ppc_types self (PyLong z)
     = Raise (not_implemented ppc_types "__add__" self (PyLong z)) /\
   SignedWordType.__add__ ppc_types self (PyLong z)
     = Raise (not_implemented ppc_types "__add__" self (PyLong z)) /\
   SignedWordType.__mul__ ppc_types self (PyLong z)
     = Raise (not_implemented ppc_types "__mul__" self (PyLong z))).
Proof.
  intros He.
  destruct (int_is_no_word z) as (Hu & Hs & Hi).
  destruct (long_is_no_word z) as (Hu' & Hs' & Hi').
  unfold UnsignedWordType.__add__, SignedWordType.__add__, SignedWordType.__mul__.
  rewrite Hu, Hs, Hi, Hu', Hs', Hi', He. auto 6.
Qed.

Lemma word_arithmetic_int_not_long_witness :
  SignedWordType.__add__ ppc_types a_signed_word (PyInt 12)
    = Ret (Expr_new User.SignedWordEx ppc.addi [a_signed_word; PyInt 12]) /\
  SignedWordType.__add__ ppc_types a_signed_word (PyLong 12)
    = Raise (not_implemented ppc_types "__add__" a_signed_word (PyLong 12)).
Proof.
  destruct (word_arithmetic_int_not_long a_signed_word 12 User.SignedWordEx)
    as [(_ & Hint & _) (_ & Hlong & _)]; [vm_compute; reflexivity|].
  split; assumption.
Defined.

(** X8. An unsigned word is divided by signed words only: by a signed
    word it builds the caller's expression class around the unsigned
    divide with the operands in order; by an unsigned word or by a host
    literal it fails in the [raise] statement itself. *)
Theorem unsigned_divide_by_signed_only (self other : pyobj) (e : cref) :
  getattr ppc_types self "expr_cls" = Ret e ->
  (isinstance ppc_types other Cls.SignedWordType = true ->
     UnsignedWordType.__div__ ppc_types self other
       = Ret (Expr_new e ppc.divwux [self; other])) /\
  (isinstance ppc_types other Cls.UnsignedWordType = true
   \/ type_of other = Cls.int \/ type_of other = Cls.long ->
     UnsignedWordType.__div__ ppc_types self other = Raise raise_NotImplemented).
Proof.
  intros He. unfold UnsignedWordType.__div__. split.
  - intros ->. rewrite He. reflexivity.
  - intros [H|[H|H]].
    + destruct (unsigned_is_not_signed _ H) as [-> _]. reflexivity.
    + unfold isinstance. rewrite H. reflexivity.
    + unfold isinstance. rewrite H. reflexivity.
Qed.

Lemma unsigned_divide_by_signed_only_witness :
  UnsignedWordType.__div__ ppc_types an_unsigned_word a_signed_word
    = Ret (Expr_new User.UnsignedWordEx ppc.divwux [an_unsigned_word; a_signed_word]).
Proof.
  refine (proj1 (unsigned_divide_by_signed_only an_unsigned_word a_signed_word
                   User.UnsignedWordEx _) _); vm_compute; reflexivity.
Defined.

(** X9. Signed and unsigned words do not mix in arithmetic: adding a
    signed word to an unsigned one raises, and so do adding, multiplying,
    dividing and subtracting an unsigned word on a signed one. *)
Theorem mixed_sign_arithmetic_raises (self other : pyobj) :
  (isinstance ppc_types other Cls.SignedWordType = true ->
     UnsignedWordType.__add__ ppc_types self other
       = Raise (not_implemented ppc_types "__add__" self other)) /\
  (isinstance ppc_types other Cls.UnsignedWordType = true ->
     SignedWordType.__add__ ppc_types self other
       = Raise (not_implemented ppc_types "__add__" self other) /\
     SignedWordType.__mul__ ppc_types self other
       = Raise (not_implemented ppc_types "__mul__" self other) /\
     SignedWordType.__div__ ppc_types self other
       = Raise (not_implemented ppc_types "__div__" self other) /\
     SignedWordType.__sub__ ppc_types self other
       = Raise (not_implemented ppc_types "__add__" self other)).
Proof.
  unfold UnsignedWordType.__add__, SignedWordType.__add__, SignedWordType.__mul__,
    SignedWordType.__div__, SignedWordType.__sub__.
  split; intros H.
  - destruct (signed_is_not_unsigned _ H) as [-> ->]. reflexivity.
  - destruct (unsigned_is_not_signed _ H) as [-> ->]. auto.
Qed.

Lemma mixed_sign_arithmetic_raises_witness :
  UnsignedWordType.__add__ ppc_types an_unsigned_word a_signed_word
    = Raise (not_implemented ppc_types "__add__" an_unsigned_word a_signed_word).
Proof.
  refine (proj1 (mixed_sign_arithmetic_raises an_unsigned_word a_signed_word) _).
  vm_compute. reflexivity.
Defined.

(** ** Float arithmetic *)

Lemma host_float_is_no_float_value o :
  type_of o = Cls.float ->
  isinstance ppc_types o Cls.SingleFloatType = false /\
  isinstance ppc_types o Cls.DoubleFloatType = false.
Proof. unfold isinstance. intros ->. vm_compute. auto. Qed.

(** X10. Float arithmetic stays within one precision.  A single-precision
    right operand makes the single-precision operators pick their
    templates with the left operand's storage class forced, and makes
    every double-precision operator raise; a host float is refused by
    both. *)
Theorem float_arithmetic_one_precision (self other : pyobj) (v : cref) :
  getattr ppc_types self "var_cls" = Ret v ->
  (isinstance ppc_types other Cls.SingleFloatType = true ->
     (SingleFloatType.__add__ ppc_types self other
        = Ret (Inst_ex ppc.faddsx [self; other] (Some v)) /\
      SingleFloatType.__sub__ ppc_types self other
        = Ret (Inst_ex ppc.fsubsx [self; other] (Some v)) /\
      SingleFloatType.__mul__ ppc_types self other
        = Ret (Inst_ex ppc.fmulsx [self; other] (Some v)) /\
      SingleFloatType.__div__ ppc_types self other
        = Ret (Inst_ex ppc.fdivsx [self; other] (Some v))) /\
     (DoubleFloatType.__add__ ppc_types self other
        = Raise (not_implemented ppc_types "__add__" self other) /\
      DoubleFloatType.__sub__ ppc_types self other
        = Raise (not_implemented ppc_types "__sub__" self other) /\
      DoubleFloatType.__mul__ ppc_types self other
        = Raise (not_implemented ppc_types "__mul__" self other) /\
      DoubleFloatType.__div__ ppc_types self other
        = Raise (not_implemented ppc_types "__div__" self other))) /\
  (type_of other = Cls.float ->
     SingleFloatType.__add__ ppc_types self other
       = Raise (not_implemented ppc_types "__add__" self other) /\
     DoubleFloatType.__add__ ppc_types self other
       = Raise (not_implemented ppc_types "__add__" self other)).
Proof.
  intros Hv.
  unfold SingleFloatType.__add__, SingleFloatType.__sub__, SingleFloatType.__mul__,
    SingleFloatType.__div__, DoubleFloatType.__add__, DoubleFloatType.__sub__,
    DoubleFloatType.__mul__, DoubleFloatType.__div__, float_binary.
  split.
  - intros Hs. destruct (instance_of_SingleFloatType _ Hs) as [_ Hd].
    rewrite Hs, Hd, Hv. auto 8.
  - intros Hf. destruct (host_float_is_no_float_value _ Hf) as [-> ->]. auto.
Qed.

Lemma float_arithmetic_one_precision_witness :
  SingleFloatType.__add__ ppc_types a_single a_single
    = Ret (Inst_ex ppc.faddsx [a_single; a_single] (Some User.SingleFloat)) /\
  DoubleFloatType.__add__ ppc_types a_double a_single
    = Raise (not_implemented ppc_types "__add__" a_double a_single).
Proof.
  split.
  - refine (proj1 (proj1 (proj1 (float_arithmetic_one_precision
              a_single a_single User.SingleFloat _) _))); vm_compute; reflexivity.
  - refine (proj1 (proj2 (proj1 (float_arithmetic_one_precision
              a_double a_single User.DoubleFloat _) _))); vm_compute; reflexivity.
Defined.

(** ** Integer literals *)

(** X11. How many instructions an integer literal costs: one exactly when
    [0 <= L < 65536], two otherwise; in particular every negative literal,
    however small, takes two. *)
Theorem integer_literal_length (M : pymodule) (cls : cref) (reg : nat)
    (c : sref) (v : pyobj) (L : Z) (W : world) :
  exists W',
    BitType._set_literal_value M (PyVar cls reg (Some c) v) L W = (Ret (), W') /\
    (length (instructions (streams W' c))
       = 1 + length (instructions (streams W c)) <-> (0 <= L < 65536)%Z) /\
    (length (instructions (streams W' c))
       = 2 + length (instructions (streams W c)) <-> ~ (0 <= L < 65536)%Z).
Proof.
  destruct (set_literal_value_run M cls reg c v L W) as (W' & Hrun & _ & Hc).
  exists W'. split; [exact Hrun|]. rewrite Hc. cbn. rewrite length_app.
  unfold literal_code. rewrite <- low_bits_fit.
  destruct (Z.eqb_spec (Z.land L 65535) L) as [Heq|Hne]; cbn; split; split;
    intros H; try lia; try tauto.
Qed.

(** X12. The two halves of a two-instruction literal recombine: the low
    sixteen bits of [L] read as a signed number, plus the immediate of the
    shifted add times 65536, is [L]. *)
Theorem integer_literal_halves (M : pymodule) (cls : cref) (reg : nat)
    (c : sref) (v : pyobj) (L : Z) (W : world) :
  Z.land L 0xFFFF <> L ->
  exists W' h,
    BitType._set_literal_value M (PyVar cls reg (Some c) v) L W = (Ret (), W') /\
    instructions (streams W' c)
      = instructions (streams W c)
        ++ [Instruction ppc.addi [Reg reg; Imm 0; Imm L];
            Instruction ppc.addis [Reg reg; Reg reg; Imm h]] /\
    (sign_extend_16 L + h * 65536 = L)%Z.
Proof.
  intros Hne.
  destruct (set_literal_value_run M cls reg c v L W) as (W' & Hrun & _ & Hc).
  exists W', (Z.shiftr (L + 32768) 16). split; [exact Hrun|].
  split; [|apply halves_recombine].
  rewrite Hc. cbn. unfold literal_code.
  destruct (Z.eqb_spec (Z.land L 65535) L) as [Heq|_]; [contradiction|].
  reflexivity.
Qed.

Lemma integer_literal_halves_witness :
  exists W' h,
    BitType._set_literal_value ppc_types a_bits 0x0F0F8FFF one_active = (Ret (), W') /\
    instructions (streams W' 0)
      = instructions (streams one_active 0)
        ++ [Instruction ppc.addi [Reg 3; Imm 0; Imm 0x0F0F8FFF];
            Instruction ppc.addis [Reg 3; Reg 3; Imm h]] /\
    (sign_extend_16 0x0F0F8FFF + h * 65536 = 0x0F0F8FFF)%Z.
Proof.
  apply (integer_literal_halves ppc_types User.Bits 3 0 (PyInt 255) 0x0F0F8FFF
           one_active).
  vm_compute. discriminate.
Defined.

(** X13. The one-instruction literals.  For [0 <= L < 65536] the only
    instruction is the load of [L] as an immediate; the low sixteen bits
    read as a signed number are [L] below 32768, and [L - 65536] from
    32768 on, where no second instruction makes up for the difference. *)
Theorem integer_literal_single (M : pymodule) (cls : cref) (reg : nat)
    (c : sref) (v : pyobj) (L : Z) (W : world) :
  (0 <= L < 65536)%Z ->
  exists W',
    BitType._set_literal_value M (PyVar cls reg (Some c) v) L W = (Ret (), W') /\
    instructions (streams W' c)
      = instructions (streams W c)
        ++ [Instruction ppc.addi [Reg reg; Imm 0; Imm L]] /\
    ((L < 32768)%Z -> sign_extend_16 L = L) /\
    ((32768 <= L)%Z -> sign_extend_16 L = (L - 65536)%Z).
Proof.
  intros Hrange.
  destruct (set_literal_value_run M cls reg c v L W) as (W' & Hrun & _ & Hc).
  exists W'. split; [exact Hrun|]. split.
  - rewrite Hc. cbn. unfold literal_code.
    apply low_bits_fit in Hrange.
    destruct (Z.eqb_spec (Z.land L 65535) L) as [_|Hne]; [reflexivity|contradiction].
  - unfold sign_extend_16. rewrite Z.mod_small by lia.
    split; intros H; destruct (Z.ltb_spec L 32768); lia.
Qed.

Lemma integer_literal_single_witness :
  exists W',
    BitType._set_literal_value ppc_types a_bits 0xFFFF one_active = (Ret (), W') /\
    instructions (streams W' 0)
      = instructions (streams one_active 0)
        ++ [Instruction ppc.addi [Reg 3; Imm 0; Imm 0xFFFF]] /\
    ((0xFFFF < 32768)%Z -> sign_extend_16 0xFFFF = 0xFFFF%Z) /\
    ((32768 <= 0xFFFF)%Z -> sign_extend_16 0xFFFF = (0xFFFF - 65536)%Z).
Proof.
  apply (integer_literal_single ppc_types User.Bits 3 0 (PyInt 255) 0xFFFF one_active).
  lia.
Defined.

(** ** Float literals that fail *)

(** X14. A float literal whose stored value does not convert to a float
    fails before anything is touched: no pool entry, no register taken, no
    instruction, in either precision. *)
Theorem float_literal_bad_value (M : pymodule) (self value v : pyobj)
    (address : Z) (W : world) (e : exn) :
  attr_value M self = Ret v ->
  py_float v = Raise e ->
  SingleFloatType._set_literal_value M self value address W = (Raise e, W) /\
  DoubleFloatType._set_literal_value M self value address W = (Raise e, W).
Proof.
  intros Hv Hx.
  unfold SingleFloatType._set_literal_value, DoubleFloatType._set_literal_value,
    bind, lift.
  rewrite Hv, Hx. auto.
Qed.

Lemma float_literal_bad_value_witness :
  SingleFloatType._set_literal_value ppc_types
      (PyVar User.SingleFloat 1 (Some 0) PyNone) (PyFloat one) 4096 one_active
    = (Raise (TypeError "float() argument must be a string or a number"), one_active) /\
  DoubleFloatType._set_literal_value ppc_types
      (PyVar User.SingleFloat 1 (Some 0) PyNone) (PyFloat one) 4096 one_active
    = (Raise (TypeError "float() argument must be a string or a number"), one_active).
Proof.
  apply (float_literal_bad_value ppc_types
           (PyVar User.SingleFloat 1 (Some 0) PyNone) (PyFloat one) PyNone);
    reflexivity.
Defined.



Lemma acquire_register_raise target W e W' :
  code.acquire_register target W = (Raise e, W') -> same_free W W'.
Proof.
  unfold code.acquire_register, code.method. destruct target as [c|].
  - destruct (free_registers (streams W c)) as [|r rest] eqn:E; [|discriminate].
    intros [= <- <-] c'. cbn. heap; reflexivity.
  - intros [= <- <-]. apply same_free_refl.
Qed.

Lemma release_register_returns c r W res W' :
  code.release_register (Some c) r W = (res, W') -> res = Ret ().
Proof.
  unfold code.release_register, code.method. intros [= <- <-]. reflexivity.
Qed.

(** What a failing run of the shared body can have done to an allocator. *)
Lemma scratch_leak_bounded M target entry load self W W' e :
  (code.add_storage target entry ;;;
   r_storage <- code.acquire_register target ;;
   addr <- Bits M (arr_address entry) r_storage ;;
   reg <- lift (attr_reg M self) ;;
   addr_reg <- lift (attr_reg M addr) ;;
   (code.add target (Instruction load [Reg reg; Reg addr_reg; Imm 0])) ;;;
   code.release_register target r_storage) W = (Raise e, W') ->
  forall c,
    free_registers (streams W' c) = free_registers (streams W c)
    \/ (target = Some c /\
        exists r, free_registers (streams W c) = r :: free_registers (streams W' c)).
Proof.
  intros H c.
  apply bind_inv in H as [(u & W1 & Hsto & H)|(e1 & Hsto & _)];
    apply add_storage_frame in Hsto; [|left; apply Hsto].
  cbv beta in H.
  apply bind_inv in H as [(r_s & W2 & Hacq & H)|(e2 & Hacq & _)].
  2:{ left. apply acquire_register_raise in Hacq. rewrite Hacq. apply Hsto. }
  apply acquire_register_inv in Hacq as (c0 & -> & Hpop & Hacq).
  assert (Hleak : forall W3, same_free W2 W3 ->
            free_registers (streams W3 c) = free_registers (streams W c)
            \/ (Some c0 = Some c /\
                exists r, free_registers (streams W c)
                          = r :: free_registers (streams W3 c))).
  { intros W3 H23. destruct (decide (c = c0)) as [->|Hne].
    - right. split; [reflexivity|]. exists r_s.
      rewrite (H23 c0), <- Hpop. symmetry. apply Hsto.
    - left. rewrite (H23 c), (Hacq _ Hne). apply Hsto. }
  cbv beta in H.
  apply bind_inv in H as [(addr & W3 & Hbits & H)|(e3 & Hbits & _)];
    apply Bits_frame in Hbits; [|apply Hleak; exact Hbits].
  cbv beta in H.
  apply bind_inv in H as [(reg & W4 & Hreg & H)|(e4 & Hreg & _)];
    apply lift_inv in Hreg as [_ ->]; [|apply Hleak; exact Hbits].
  cbv beta in H.
  apply bind_inv in H as [(areg & W5 & Hareg & H)|(e5 & Hareg & _)];
    apply lift_inv in Hareg as [_ ->]; [|apply Hleak; exact Hbits].
  cbv beta in H.
  apply bind_inv in H as [(u' & W6 & Hadd & H)|(e6 & Hadd & _)];
    apply add_frame in Hadd.
  - apply release_register_returns in H. discriminate H.
  - apply Hleak. exact (same_free_trans _ _ _ Hbits Hadd).
Qed.

(** X16. A float literal that raises costs at most its scratch register:
    every allocator is as it was, except possibly that of the value's own
    stream, which then misses exactly the register that was taken. *)
Theorem float_literal_leaks_at_most_one (M : pymodule) (self value : pyobj)
    (address : Z) (W W' : world) (e : exn) :
  SingleFloatType._set_literal_value M self value address W = (Raise e, W')
  \/ DoubleFloatType._set_literal_value M self value address W = (Raise e, W') ->
  forall c,
    free_registers (streams W' c) = free_registers (streams W c)
    \/ (attr_code M self = Ret (Some c) /\
        exists r, free_registers (streams W c) = r :: free_registers (streams W' c)).
Proof.
  assert (Hpure : forall {A} (r : res A) (k : A -> action unit) W0 W1 e0,
    bind (lift r) k W0 = (Raise e0, W1) ->
    (exists a, r = Ret a /\ k a W0 = (Raise e0, W1)) \/ W1 = W0).
  { intros A r k W0 W1 e0 H.
    apply bind_inv in H as [(a & W2 & Hr & H)|(e1 & Hr & _)];
      apply lift_inv in Hr as [Hr ->]; [left; eauto|right; reflexivity]. }
  intros H c.
  assert (Hbody : W' = W \/ exists entry load target,
    attr_code M self = Ret target /\
    (code.add_storage target entry ;;;
     r_storage <- code.acquire_register target ;;
     addr <- Bits M (arr_address entry) r_storage ;;
     reg <- lift (attr_reg M self) ;;
     addr_reg <- lift (attr_reg M addr) ;;
     (code.add target (Instruction load [Reg reg; Reg addr_reg; Imm 0])) ;;;
     code.release_register target r_storage) W = (Raise e, W')).
  { destruct H as [H|H];
      unfold SingleFloatType._set_literal_value,
        DoubleFloatType._set_literal_value in H;
      (apply Hpure in H as [(v & _ & H)| ->]; [|left; reflexivity]);
      (apply Hpure in H as [(x & _ & H)| ->]; [|left; reflexivity]);
      cbv zeta in H;
      (apply Hpure in H as [(target & Ht & H)| ->]; [|left; reflexivity]);
      right; do 3 eexists; (split; [exact Ht|exact H]). }
  destruct Hbody as [->|(entry & load & target & Ht & Hrun)]; [left; reflexivity|].
  destruct (scratch_leak_bounded _ _ _ _ _ _ _ _ Hrun c) as [Hsame|[-> Hleak]].
  - left. exact Hsame.
  - right. split; assumption.
Qed.

Lemma float_literal_leaks_at_most_one_witness :
  free_registers
    (streams (snd (SingleFloatType._set_literal_value
                     ppc_types a_single PyNone 4096 none_active)) 0)
    = free_registers (streams none_active 0)
  \/ (attr_code ppc_types a_single = Ret (Some 0) /\
      exists r,
        free_registers (streams none_active 0)
        = r :: free_registers
                 (streams (snd (SingleFloatType._set_literal_value
                                  ppc_types a_single PyNone 4096 none_active)) 0)).
Proof.
  apply (float_literal_leaks_at_most_one ppc_types a_single PyNone 4096 none_active
           _ (AttributeError "'NoneType' object has no attribute 'add'")).
  left. vm_compute. reflexivity.
Defined.

(** ** The factory, on any module *)

Lemma c3_merge_covers fuel seqs l :
  c3_merge fuel seqs = Some l ->
  forall s x, In s seqs -> In x s -> In x l.
Proof.
  revert seqs l. induction fuel as [|n IH]; intros seqs l; simpl; [discriminate|].
  destruct (forallb is_nil seqs) eqn:Hnil.
  - intros [= <-] s x Hs Hx. rewrite forallb_forall in Hnil.
    specialize (Hnil s Hs). destruct s; [destruct Hx|discriminate].
  - intros H. apply bind_Some in H as (c & _ & H).
    apply bind_Some in H as (rest & Hrest & [= <-]).
    intros s x Hs Hx. destruct (decide (x = c)) as [->|Hne]; [left; reflexivity|].
    right. apply (IH _ _ Hrest (drop_head c s) x).
    + apply in_map. exact Hs.
    + destruct s as [|h t]; [destruct Hx|]. simpl.
      destruct (bool_decide (h = c)) eqn:Hh; [|exact Hx].
      apply bool_decide_eq_true in Hh. destruct Hx as [->|Hx];
        [contradiction|exact Hx].
Qed.

Lemma type_new_bases n m bases d cs c cs' :
  type_new n m bases d cs = Ret (c, cs') ->
  c = length cs /\
  exists tail,
    cs' = cs ++ [PyClass n m bases (c :: tail) d] /\
    forall b, In b bases -> In b tail /\ b < length cs.
Proof.
  unfold type_new. destruct (compute_mro _ _ _) as [mro|] eqn:E; [|discriminate].
  intros [= <- <-]. split; [reflexivity|].
  unfold compute_mro in E. apply bind_Some in E as (mros & Hmros & E).
  apply bind_Some in E as (tail & Htail & [= <-]).
  exists tail. split; [reflexivity|]. intros b Hb. split.
  - apply (c3_merge_covers _ _ _ Htail bases b); [|exact Hb].
    apply in_or_app. right. left. reflexivity.
  - apply mapM_Some_1 in Hmros.
    apply list_elem_of_In, list_elem_of_lookup_1 in Hb as [i Hi].
    destruct (Forall2_lookup_l _ _ _ _ _ Hmros Hi) as (y & _ & Hy).
    destruct (cs !! b) eqn:Hcb; [|discriminate].
    exact (lookup_lt_Some _ _ _ Hcb).
Qed.

(** The heap after a run of the factory that returned. *)
Lemma make_user_type_heap n kind M M' :
  make_user_type n kind M = (Ret (), M') ->
  kind < length (classes M) /\
  exists tv te,
    In kind tv /\ In Cls.Variable_ tv /\ In kind te /\ In Cls.Expression te /\
    classes M' =
      class_setattr kind "expr_cls" (S (length (classes M)))
        (class_setattr kind "var_cls" (length (classes M))
           ((classes M
             ++ [PyClass n (Some this_module) [Cls.Variable_; kind]
                   (length (classes M) :: tv) {[ "type_cls" := kind ]}])
            ++ [PyClass (n +:+ "Ex") (Some this_module) [Cls.Expression; kind]
                  (S (length (classes M)) :: te) {[ "type_cls" := kind ]}])).
Proof.
  unfold make_user_type.
  destruct (type_new n _ _ _ _) as [[v cs1]|] eqn:E1; [|discriminate].
  destruct (type_new (n +:+ "Ex") _ _ _ _) as [[e cs2]|] eqn:E2; [|discriminate].
  intros [= <-]. cbn [classes].
  destruct (type_new_bases _ _ _ _ _ _ _ E1) as (-> & tv & -> & Hv).
  destruct (type_new_bases _ _ _ _ _ _ _ E2) as (-> & te & -> & He).
  rewrite length_app in *. cbn [length] in *.
  replace (length (classes M) + 1) with (S (length (classes M))) in * by lia.
  split; [apply (Hv kind); right; left; reflexivity|].
  exists tv, te. repeat split.
  - apply (Hv kind). right. left. reflexivity.
  - apply (Hv Cls.Variable_). left. reflexivity.
  - apply (He kind). right. left. reflexivity.
  - apply (He Cls.Expression). left. reflexivity.
Qed.

(** X17. The classes the factory creates inherit from the kind: after any
    run that returns, the new storage class is a subclass of the kind and
    of [Variable], the new expression class of the kind and of
    [Expression], so their instances pass the operators' [isinstance]
    tests for the kind. *)
Theorem factory_classes_inherit (n : string) (kind : cref) (M M' : pymodule) :
  make_user_type n kind M = (Ret (), M') ->
  issubclass (classes M') (length (classes M)) kind = true /\
  issubclass (classes M') (length (classes M)) Cls.Variable_ = true /\
  issubclass (classes M') (S (length (classes M))) kind = true /\
  issubclass (classes M') (S (length (classes M))) Cls.Expression = true.
Proof.
  intros H.
  destruct (make_user_type_heap _ _ _ _ H)
    as (Hlt & tv & te & Hkv & Hvv & Hke & Hee & ->).
  unfold issubclass, class_setattr, cref in *.
  rewrite !list_lookup_alter_ne by lia.
  rewrite (lookup_app_l _ _ (length (classes M)))
    by (rewrite length_app; simpl; lia).
  rewrite (lookup_app_r (classes M)) by lia. rewrite Nat.sub_diag.
  rewrite (lookup_app_r _ _ (S (length (classes M))))
    by (rewrite length_app; simpl; lia).
  rewrite length_app. simpl.
  replace (S (length (classes M)) - (length (classes M) + 1)) with 0 by lia.
  simpl.
  repeat split; apply bool_decide_eq_true_2, list_elem_of_In; right; assumption.
Qed.

Lemma factory_classes_inherit_witness :
  issubclass (classes (snd (make_user_type "Bits" Cls.BitType
                              (PyModule declared_classes ∅))))
             (length declared_classes) Cls.BitType = true /\
  issubclass (classes (snd (make_user_type "Bits" Cls.BitType
                              (PyModule declared_classes ∅))))
             (length declared_classes) Cls.Variable_ = true /\
  issubclass (classes (snd (make_user_type "Bits" Cls.BitType
                              (PyModule declared_classes ∅))))
             (S (length declared_classes)) Cls.BitType = true /\
  issubclass (classes (snd (make_user_type "Bits" Cls.BitType
                              (PyModule declared_classes ∅))))
             (S (length declared_classes)) Cls.Expression = true.
Proof.
  apply (factory_classes_inherit "Bits" Cls.BitType (PyModule declared_classes ∅)).
  vm_compute. reflexivity.
Defined.

(** X18. The factory leaves the classes that exist alone: after any run
    that returns, every class other than the kind is the object it was,
    and no subclass relation from an existing class has changed, the
    kind's included. *)
Theorem factory_keeps_existing_classes (n : string) (kind : cref)
    (M M' : pymodule) (c : cref) :
  make_user_type n kind M = (Ret (), M') ->
  c < length (classes M) ->
  (c <> kind -> classes M' !! c = classes M !! c) /\
  (forall d, issubclass (classes M') c d = issubclass (classes M) c d).
Proof.
  intros H Hc.
  destruct (make_user_type_heap _ _ _ _ H) as (Hlt & tv & te & _ & _ & _ & _ & ->).
  unfold issubclass, class_setattr, cref in *.
  assert (Hold : forall X Y : list pyclass,
            ((classes M ++ X) ++ Y) !! c = classes M !! c).
  { intros X Y. rewrite lookup_app_l by (rewrite length_app; lia).
    apply lookup_app_l. exact Hc. }
  split.
  - intros Hne. rewrite !list_lookup_alter_ne by congruence. apply Hold.
  - intros d. destruct (decide (c = kind)) as [->|Hne].
    + rewrite !list_lookup_alter_eq, Hold.
      destruct (classes M !! kind); reflexivity.
    + rewrite !list_lookup_alter_ne by congruence. rewrite Hold. reflexivity.
Qed.

Lemma factory_keeps_existing_classes_witness :
  (User.Bits <> Cls.BitType ->
   classes (snd (make_user_type "Bits" Cls.BitType ppc_types)) !! User.Bits
     = classes ppc_types !! User.Bits) /\
  (forall d,
     issubclass (classes (snd (make_user_type "Bits" Cls.BitType ppc_types)))
                User.Bits d
     = issubclass (classes ppc_types) User.Bits d).
Proof.
  apply (factory_keeps_existing_classes "Bits" Cls.BitType ppc_types).
  - vm_compute. reflexivity.
  - vm_compute. lia.
Defined.

(** X19. What a run of the factory binds.  On a kind that heads its own
    resolution order, a run that returns leaves the kind and the two new
    classes cross-linked, binds the given name to the new storage class,
    and names the two classes after it, the expression class with the
    suffix [Ex]. *)
Theorem factory_binds_and_names (n : string) (kind : cref) (M M' : pymodule)
    (cl : pyclass) (mro : list cref) :
  classes M !! kind = Some cl ->
  cls_mro cl = kind :: mro ->
  make_user_type n kind M = (Ret (), M') ->
  cross_linked M' kind (length (classes M)) (S (length (classes M))) /\
  global M' n = Ret (length (classes M)) /\
  class_name (classes M') (length (classes M)) = n /\
  class_name (classes M') (S (length (classes M))) = n +:+ "Ex".
Proof.
  intros Hkind Hmro H.
  destruct (make_user_type_links _ _ _ _ _ _ Hkind Hmro H) as (Hlinks & Hglobal & _).
  split; [exact Hlinks|].
  split; [unfold global; unfold cref in *; rewrite Hglobal; reflexivity|].
  destruct (make_user_type_heap _ _ _ _ H) as (Hlt & tv & te & _ & _ & _ & _ & ->).
  unfold class_name, class_setattr, cref in *.
  rewrite !list_lookup_alter_ne by lia.
  rewrite (lookup_app_l _ _ (length (classes M)))
    by (rewrite length_app; simpl; lia).
  rewrite (lookup_app_r (classes M)) by lia. rewrite Nat.sub_diag.
  rewrite (lookup_app_r _ _ (S (length (classes M))))
    by (rewrite length_app; simpl; lia).
  rewrite length_app. simpl.
  replace (S (length (classes M)) - (length (classes M) + 1)) with 0 by lia.
  simpl. auto.
Qed.

Lemma factory_binds_and_names_witness :
  cross_linked (snd (make_user_type "Word" Cls.SignedWordType ppc_types))
               Cls.SignedWordType 25 26 /\
  global (snd (make_user_type "Word" Cls.SignedWordType ppc_types)) "Word" = Ret 25 /\
  class_name (classes (snd (make_user_type "Word" Cls.SignedWordType ppc_types))) 25
    = "Word" /\
  class_name (classes (snd (make_user_type "Word" Cls.SignedWordType ppc_types))) 26
    = "Word" +:+ "Ex".
Proof.
  eapply (factory_binds_and_names "Word" Cls.SignedWordType ppc_types);
    vm_compute; reflexivity.
Defined.

(** ** The dispatcher's operand scan *)

Lemma check_operands_untyped M a pre op post ka :
  getattr M a "var_cls" = Ret ka ->
  Forall (fun o => getattr M o "var_cls" = Ret ka) pre ->
  hasattr M op "var_cls" = false ->
  float_function.check_operands M a (pre ++ op :: post)
    = Raise (no_attribute M op "var_cls").
Proof.
  intros Ha Hpre Hop. induction Hpre as [|o pre Ho _ IH]; simpl.
  - rewrite (not_hasattr_getattr _ _ _ Hop). reflexivity.
  - rewrite Ho, Ha. simpl. rewrite bool_decide_eq_false_2 by tauto. exact IH.
Qed.

(** X20. The dispatcher reads [var_cls] off every operand after the first:
    an operand without one (a host float, say) makes the call fail with
    that attribute error, not with the mismatch exception, provided the
    operands before it agree with the first; and a call with no operand
    at all fails on the first subscript. *)
Theorem float_function_untyped_operand (M : pymodule) (f : _float_function)
    (a op : pyobj) (pre post : list pyobj) (ka : cref) :
  getattr M a "var_cls" = Ret ka ->
  Forall (fun o => getattr M o "var_cls" = Ret ka) pre ->
  hasattr M op "var_cls" = false ->
  float_function.__call__ M f (a :: pre ++ op :: post)
    = Raise (no_attribute M op "var_cls") /\
  float_function.__call__ M f [] = Raise (IndexError "tuple index out of range").
Proof.
  intros Ha Hpre Hop. split; [|reflexivity].
  unfold float_function.__call__.
  rewrite (check_operands_untyped _ _ _ _ _ _ Ha Hpre Hop). reflexivity.
Qed.

Lemma float_function_untyped_operand_witness :
  float_function.__call__ ppc_types fmadd [a_single; a_single; PyFloat two; a_double]
    = Raise (AttributeError "'float' object has no attribute 'var_cls'") /\
  float_function.__call__ ppc_types fmadd []
    = Raise (IndexError "tuple index out of range").
Proof.
  apply (float_function_untyped_operand ppc_types fmadd a_single (PyFloat two)
           [a_single] [a_double] User.SingleFloat).
  - vm_compute. reflexivity.
  - repeat constructor.
  - vm_compute. reflexivity.
Defined.

(** ** The framebuffer demo *)

(** X21. A synthesis that returns has run the drawing body, on the given
    stream installed as the active target, with buffers and stride both
    set, and has put back the target that was active on entry, whatever
    the body did to the slot. *)
Theorem synthesize_on_return (draw : FBDraw.t -> sref -> action unit)
    (self : FBDraw.t) (code : sref) (W W' : world) :
  FBDraw.synthesize draw self code W = (Ret (), W') ->
  active_code W' = active_code W /\
  FBDraw.buffers self <> None /\
  FBDraw.stride self <> None /\
  exists W1,
    draw self code (World (streams W) (Some code)) = (Ret (), W1) /\
    streams W' = streams W1.
Proof.
  intros H. split; [exact (synthesize_restores_on_return _ _ _ _ _ H)|].
  unfold FBDraw.synthesize, bind, get_active_code, set_active_code, throw, ret in H.
  destruct (bool_decide (FBDraw.buffers self = None)) eqn:Hb; [discriminate|].
  destruct (bool_decide (FBDraw.stride self = None)) eqn:Hs; [discriminate|].
  apply bool_decide_eq_false in Hb, Hs.
  destruct (draw self code _) as [[[]|e] W1] eqn:Hdraw; [|discriminate].
  injection H as <-. repeat split; try assumption.
  exists W1. split; reflexivity.
Qed.

Lemma synthesize_on_return_witness :
  active_code (snd (FBDraw.synthesize careless_body a_drawer 1 one_active))
    = active_code one_active /\
  FBDraw.buffers a_drawer <> None /\
  FBDraw.stride a_drawer <> None /\
  exists W1,
    careless_body a_drawer 1 (World (streams one_active) (Some 1)) = (Ret (), W1) /\
    streams (snd (FBDraw.synthesize careless_body a_drawer 1 one_active))
      = streams W1.
Proof.
  apply (synthesize_on_return careless_body a_drawer 1 one_active).
  reflexivity.
Defined.

(** X22. A synthesis that raises leaves its own stream installed: if the
    drawing body never writes the slot, then after any failure, in the
    checks or in the body, the active target is the stream that was
    passed in, not the one saved on entry. *)
Theorem synthesize_on_raise (draw : FBDraw.t -> sref -> action unit)
    (self : FBDraw.t) (code : sref) (W W' : world) (e : exn) :
  (forall s c W1 r W2, draw s c W1 = (r, W2) -> active_code W2 = active_code W1) ->
  FBDraw.synthesize draw self code W = (Raise e, W') ->
  active_code W' = Some code.
Proof.
  intros Hdraw H.
  unfold FBDraw.synthesize, bind, get_active_code, set_active_code, throw, ret in H.
  destruct (bool_decide (FBDraw.buffers self = None));
    [injection H as _ <-; reflexivity|].
  destruct (bool_decide (FBDraw.stride self = None));
    [injection H as _ <-; reflexivity|].
  destruct (draw self code _) as [[[]|e'] W1] eqn:E; [discriminate|].
  injection H as _ <-. exact (Hdraw _ _ _ _ _ E).
Qed.

Lemma synthesize_on_raise_witness :
  active_code (snd (FBDraw.synthesize failing_body a_drawer 1 one_active)) = Some 1.
Proof.
  apply (synthesize_on_raise failing_body a_drawer 1 one_active _
           (Exception "no framebuffer")).
  - intros s c W1 r W2 H. unfold failing_body, bind, code.add, code.method, throw in H.
    injection H as _ <-. reflexivity.
  - reflexivity.
Defined.

(** ** The more specific kind wins *)

Lemma bit_value_kind o kb :
  isinstance ppc_types o Cls.BitType = true ->
  getattr ppc_types o "type_cls" = Ret kb ->
  issubclass (classes ppc_types) kb Cls.BitType = true /\
  (kb = Cls.BitType \/ issubclass (classes ppc_types) Cls.BitType kb = false).
Proof.
  unfold isinstance, getattr. generalize (type_of o) as c. intros c H Hk.
  pose proof (issubclass_loaded _ _ H) as Hlt.
  each_class c; try lia; vm_compute in H; try discriminate H;
    vm_compute in Hk; try discriminate Hk; injection Hk as <-;
    vm_compute; auto.
Qed.

(** X23. A bitwise operator between a generic-bits value and a typed value
    of the hierarchy keeps the more specific of the two types, on either
    side: generic on the left, the result kind is the right operand's
    type; generic on the right and a word on the left, it is the left
    operand's type. *)
Theorem bitwise_keeps_specific_type (self other : pyobj) (k : cref) :
  isinstance ppc_types self Cls.BitType = true ->
  isinstance ppc_types other Cls.BitType = true ->
  (getattr ppc_types self "type_cls" = Ret Cls.BitType ->
   getattr ppc_types other "type_cls" = Ret k ->
     BitType.__and__ ppc_types self other
       = Ret (Inst_ex ppc.andx [self; other] (Some (type_of other))) /\
     BitType.__or__ ppc_types self other
       = Ret (Inst_ex ppc.orx [self; other] (Some (type_of other))) /\
     BitType.__xor__ ppc_types self other
       = Ret (Inst_ex ppc.xorx [self; other] (Some (type_of other)))) /\
  (getattr ppc_types self "type_cls" = Ret k ->
   getattr ppc_types other "type_cls" = Ret Cls.BitType ->
   k <> Cls.BitType ->
     BitType.__and__ ppc_types self other
       = Ret (Inst_ex ppc.andx [self; other] (Some (type_of self))) /\
     BitType.__or__ ppc_types self other
       = Ret (Inst_ex ppc.orx [self; other] (Some (type_of self))) /\
     BitType.__xor__ ppc_types self other
       = Ret (Inst_ex ppc.xorx [self; other] (Some (type_of self)))).
Proof.
  intros Hs Ho.
  unfold BitType.__and__, BitType.__or__, BitType.__xor__, BitType._upcast.
  rewrite Ho. split.
  - intros Hks Hko. destruct (bit_value_kind _ _ Ho Hko) as [Hsub _].
    rewrite (most_specific_both_typed _ _ _ _ _ _ Hks Hko), Hsub. auto.
  - intros Hks Hko Hne. destruct (bit_value_kind _ _ Hs Hks) as [Hsub [->|Hsup]];
      [contradiction|].
    rewrite (most_specific_both_typed _ _ _ _ _ _ Hks Hko), Hsup, Hsub. auto.
Qed.

Lemma bitwise_keeps_specific_type_witness :
  BitType.__and__ ppc_types a_bits a_signed_word
    = Ret (Inst_ex ppc.andx [a_bits; a_signed_word] (Some User.SignedWord)) /\
  BitType.__and__ ppc_types a_signed_word a_bits
    = Ret (Inst_ex ppc.andx [a_signed_word; a_bits] (Some User.SignedWord)).
Proof.
  split.
  - refine (proj1 (proj1 (bitwise_keeps_specific_type a_bits a_signed_word
              Cls.SignedWordType _ _) _ _)); vm_compute; reflexivity.
  - refine (proj1 (proj2 (bitwise_keeps_specific_type a_signed_word a_bits
              Cls.SignedWordType _ _) _ _ _)); vm_compute;
      try reflexivity; discriminate.
Defined.

(** ** Values that outlive a second registration *)

(** X24. When the factory is run again for a registered kind, the values
    made before the run keep their kind but no longer point at their own
    classes: on every value of that kind, [var_cls] and [expr_cls] now
    yield the two classes of the second run. *)
Theorem rerun_redirects_values (n : string) (kind : cref) (o : pyobj) :
  In (n, kind) _user_types ->
  getattr ppc_types o "type_cls" = Ret kind ->
  fst (make_user_type n kind ppc_types) = Ret () /\
  type_of o < 25 /\
  getattr (snd (make_user_type n kind ppc_types)) o "type_cls" = Ret kind /\
  getattr (snd (make_user_type n kind ppc_types)) o "var_cls" = Ret 25 /\
  getattr (snd (make_user_type n kind ppc_types)) o "expr_cls" = Ret 26.
Proof.
  unfold _user_types. cbn [In]. unfold getattr. generalize (type_of o) as c.
  intros c Hin H.
  assert (Hlt : c < 25).
  { destruct (decide (c < 25)) as [|Hge]; [assumption|].
    unfold class_lookup in H. rewrite lookup_ge_None_2 in H; [discriminate|].
    change (length (classes ppc_types)) with 25. lia. }
  each_class c; try (exfalso; lia); clear Hlt;
    vm_compute in H; try discriminate H; injection H as <-;
    (destruct Hin as [Hin|[Hin|[Hin|[Hin|[Hin|[]]]]]];
     try discriminate Hin; injection Hin as <-);
    vm_compute; repeat split; lia.
Qed.

Lemma rerun_redirects_values_witness :
  fst (make_user_type "SignedWord" Cls.SignedWordType ppc_types) = Ret () /\
  type_of a_signed_word < 25 /\
  getattr (snd (make_user_type "SignedWord" Cls.SignedWordType ppc_types))
    a_signed_word "type_cls" = Ret Cls.SignedWordType /\
  getattr (snd (make_user_type "SignedWord" Cls.SignedWordType ppc_types))
    a_signed_word "var_cls" = Ret 25 /\
  getattr (snd (make_user_type "SignedWord" Cls.SignedWordType ppc_types))
    a_signed_word "expr_cls" = Ret 26.
Proof.
  apply (rerun_redirects_values "SignedWord" Cls.SignedWordType a_signed_word).
  - cbn. auto.
  - vm_compute. reflexivity.
Defined.

(** ** Emission only appends *)

Lemma extends_refl W : extends W W.
Proof. intros c. split; reflexivity. Qed.

Lemma extends_trans W1 W2 W3 : extends W1 W2 -> extends W2 W3 -> extends W1 W3.
Proof.
  intros H12 H23 c. destruct (H12 c), (H23 c). split; etransitivity; eassumption.
Qed.

Lemma grows_bind {A B} (m : action A) (k : A -> action B) :
  grows m -> (forall a, grows (k a)) -> grows (bind m k).
Proof.
  intros Hm Hk W r W' H.
  apply bind_inv in H as [(a & W1 & H1 & H2)|(e & H1 & _)].
  - exact (extends_trans _ _ _ (Hm _ _ _ H1) (Hk _ _ _ _ H2)).
  - exact (Hm _ _ _ H1).
Qed.

Lemma grows_lift {A} (r : res A) : grows (lift r).
Proof. intros W r' W' [_ ->]%lift_inv. apply extends_refl. Qed.

Lemma grows_ret {A} (a : A) : grows (ret a).
Proof. intros W r W' [= _ <-]. apply extends_refl. Qed.

Lemma grows_get_active_code : grows get_active_code.
Proof. intros W r W' [= _ <-]. apply extends_refl. Qed.

Lemma grows_method {A} target n
    (f : InstructionStream -> res A * InstructionStream) :
  (forall s, instructions s `prefix_of` instructions (snd (f s)) /\
             storage s `prefix_of` storage (snd (f s))) ->
  grows (code.method target n f).
Proof.
  intros Hf W r W'. unfold code.method. destruct target as [c|].
  - destruct (f (streams W c)) as [r0 s'] eqn:E. intros [= <- <-] c'.
    cbn. heap; [|split; reflexivity]. specialize (Hf (streams W c')).
    rewrite E in Hf. exact Hf.
  - intros [= <- <-]. apply extends_refl.
Qed.

Lemma grows_add target i : grows (code.add target i).
Proof.
  apply grows_method. intros s. cbn. split; [apply prefix_app_r|]; reflexivity.
Qed.

Lemma grows_add_storage target a : grows (code.add_storage target a).
Proof.
  apply grows_method. intros s. cbn. split; [|apply prefix_app_r]; reflexivity.
Qed.

Lemma grows_acquire_register target : grows (code.acquire_register target).
Proof.
  apply grows_method. intros s. destruct (free_registers s); cbn;
    split; reflexivity.
Qed.

Lemma grows_release_register target r : grows (code.release_register target r).
Proof. apply grows_method. intros s. cbn. split; reflexivity. Qed.

Lemma grows_set_literal_value M self L : grows (BitType._set_literal_value M self L).
Proof.
  unfold BitType._set_literal_value.
  apply grows_bind; [apply grows_lift|intros target].
  apply grows_bind; [apply grows_lift|intros reg].
  apply grows_bind; [apply grows_add|intros _].
  destruct (negb _); [apply grows_add|apply grows_ret].
Qed.

Lemma grows_Bits M value reg : grows (Bits M value reg).
Proof.
  unfold Bits.
  apply grows_bind; [apply grows_lift|intros cls].
  apply grows_bind; [apply grows_get_active_code|intros target].
  apply grows_bind; [apply grows_set_literal_value|intros _]. apply grows_ret.
Qed.

Lemma grows_float_body M target entry load self :
  grows (code.add_storage target entry ;;;
         r_storage <- code.acquire_register target ;;
         addr <- Bits M (arr_address entry) r_storage ;;
         reg <- lift (attr_reg M self) ;;
         addr_reg <- lift (attr_reg M addr) ;;
         (code.add target (Instruction load [Reg reg; Reg addr_reg; Imm 0])) ;;;
         code.release_register target r_storage).
Proof.
  apply grows_bind; [apply grows_add_storage|intros _].
  apply grows_bind; [apply grows_acquire_register|intros r_s].
  apply grows_bind; [apply grows_Bits|intros addr].
  apply grows_bind; [apply grows_lift|intros reg].
  apply grows_bind; [apply grows_lift|intros addr_reg].
  apply grows_bind; [apply grows_add|intros _]. apply grows_release_register.
Qed.

(** X25. Literal materialization only appends.  Whether an integer or a
    float routine returns or raises, in every stream the instructions and
    the constant pool it found are a prefix of what it leaves: nothing
    emitted earlier is dropped, reordered or rewritten. *)
Theorem literal_emission_appends (M : pymodule) (self value : pyobj) (L address : Z)
    (W W' : world) (r : res unit) :
  BitType._set_literal_value M self L W = (r, W')
  \/ SingleFloatType._set_literal_value M self value address W = (r, W')
  \/ DoubleFloatType._set_literal_value M self value address W = (r, W') ->
  forall c,
    instructions (streams W c) `prefix_of` instructions (streams W' c) /\
    storage (streams W c) `prefix_of` storage (streams W' c).
Proof.
  intros [H|[H|H]]; revert H.
  - apply grows_set_literal_value.
  - apply (grows_bind (B := unit)); [apply grows_lift|intros v].
    apply grows_bind; [apply grows_lift|intros x]. cbv zeta.
    apply grows_bind; [apply grows_lift|intros target].
    apply grows_float_body.
  - apply (grows_bind (B := unit)); [apply grows_lift|intros v].
    apply grows_bind; [apply grows_lift|intros x]. cbv zeta.
    apply grows_bind; [apply grows_lift|intros target].
    apply grows_float_body.
Qed.

Lemma literal_emission_appends_witness :
  instructions (streams none_active 0)
    `prefix_of`
    instructions (streams (snd (DoubleFloatType._set_literal_value
                                  ppc_types a_double PyNone 4096 none_active)) 0) /\
  storage (streams none_active 0)
    `prefix_of`
    storage (streams (snd (DoubleFloatType._set_literal_value
                             ppc_types a_double PyNone 4096 none_active)) 0).
Proof.
  apply (literal_emission_appends ppc_types a_double PyNone 0 4096 none_active _
           (Raise (AttributeError "'NoneType' object has no attribute 'add'"))).
  right. right. vm_compute. reflexivity.
Defined.
